(** * WebUpdateNotificationPlugin (packages/webpack-plugin/src/index.ts)

    A shallow embedding of the webpack adapter of
    plugin-web-update-notification: the two HTML injectors
    [injectPluginHtml] and [injectPluginHTMLInline], and the [emit] /
    [afterEmit] hooks that [WebUpdateNotificationPlugin.apply] registers.

    JavaScript strings are modelled by [string]: the sequence of bytes of
    their UTF-8 encoding (the entry HTML is read and written as utf8).  All
    markers the plugin searches for and all characters that
    [String.prototype.replace] treats specially are ASCII, and an ASCII byte
    never occurs inside a multi-byte UTF-8 sequence, so searching and
    splicing on bytes agrees with searching and splicing on UTF-16 code
    units. *)

From Stdlib Require Import String Ascii List Bool Arith Lia.
From stdpp Require Import gmap strings.

Local Open Scope string_scope.

(** stdpp freezes [String.append] under [simpl]; the model computes with it. *)
#[local] Arguments String.append !s1 s2 : simpl nomatch.

(** ** JavaScript string primitives *)

Module JS.

(** Characters that cannot be written inside a string literal here. *)
Definition dquote : string := String "034"%char EmptyString.
Definition newline : string := String "010"%char EmptyString.

(** [strip_prefix p s] is [Some t] exactly when [s = p ++ t]
    (the test behind [String.prototype.startsWith]). *)
Fixpoint strip_prefix (p s : string) : option string :=
  match p with
  | EmptyString => Some s
  | String c p' =>
      match s with
      | EmptyString => None
      | String d s' => if Ascii.eqb c d then strip_prefix p' s' else None
      end
  end.

(** [split_first p s] locates the first occurrence of [p] in [s]
    (StringIndexOf(s, p, 0)) and returns the text before and after it. *)
Fixpoint split_first (p s : string) : option (string * string) :=
  match strip_prefix p s with
  | Some t => Some (EmptyString, t)
  | None =>
      match s with
      | EmptyString => None
      | String c s' =>
          match split_first p s' with
          | Some (u, v) => Some (String c u, v)
          | None => None
          end
      end
  end.

(** [String.prototype.includes]. *)
Definition includes (s p : string) : bool :=
  match split_first p s with Some _ => true | None => false end.

(** The second character of a two-character replacement pattern. *)
Definition is_pattern_char (c : ascii) : bool :=
  Ascii.eqb c "$" || Ascii.eqb c "&" || Ascii.eqb c "`" || Ascii.eqb c "'".

(** GetSubstitution(matched, str, position, captures = [], namedCaptures =
    undefined, template), with [preceding] and [following] the parts of
    [str] before and after the match.  With no captures the patterns [$n],
    [$nn] and [$<] stand for themselves, so only [$$], [$&], [$`] and [$']
    are rewritten; every other character is copied. *)
Fixpoint GetSubstitution (matched preceding following template : string) : string :=
  match template with
  | EmptyString => EmptyString
  | String c t =>
      if Ascii.eqb c "$" then
        match t with
        | EmptyString => String c EmptyString
        | String d t' =>
            if Ascii.eqb d "$" then
              String "$" (GetSubstitution matched preceding following t')
            else if Ascii.eqb d "&" then
              matched ++ GetSubstitution matched preceding following t'
            else if Ascii.eqb d "`" then
              preceding ++ GetSubstitution matched preceding following t'
            else if Ascii.eqb d "'" then
              following ++ GetSubstitution matched preceding following t'
            else String c (GetSubstitution matched preceding following t)
        end
      else String c (GetSubstitution matched preceding following t)
  end.

(** [s.replace(searchValue, replaceValue)] for a string [searchValue] and a
    string [replaceValue]: only the first occurrence is replaced, and the
    replacement is a template expanded by [GetSubstitution]; without an
    occurrence [s] is returned as it is. *)
Definition replace (s searchValue replaceValue : string) : string :=
  match split_first searchValue s with
  | None => s
  | Some (preceding, following) =>
      preceding ++ GetSubstitution searchValue preceding following replaceValue ++ following
  end.

(** Templates without any dollar sign are inserted as they are. *)
Fixpoint no_dollar (s : string) : bool :=
  match s with
  | EmptyString => true
  | String c s' => negb (Ascii.eqb c "$") && no_dollar s'
  end.

End JS.

(** ** The interface of @plugin-web-update-notification/core

    [index.ts] imports the option type, five constants and five functions
    from the core package.  They are taken as parameters: [Options] is a
    record of the fields the adapter reads, with the remaining fields kept
    in [otherOptions]; the constants and functions are the members of the
    class [Core]. *)

Record Options (R : Type) : Type := mkOptions {
  versionType : option string;
  customVersion : option string;
  hiddenDefaultNotification : option bool;
  customNotificationHTML : option string;
  injectFileBase : option string;
  silence : option bool;
  microApp : option bool;
  (** added by [PluginOptions] *)
  indexHtmlFilePath : option string;
  otherOptions : R
}.

Arguments mkOptions {R}.
Arguments versionType {R}.
Arguments customVersion {R}.
Arguments hiddenDefaultNotification {R}.
Arguments customNotificationHTML {R}.
Arguments injectFileBase {R}.
Arguments silence {R}.
Arguments microApp {R}.
Arguments indexHtmlFilePath {R}.
Arguments otherOptions {R}.

(** What a [throw] carries: a failed file-system call, or an error raised
    inside the core package. *)
Inductive Error : Type :=
  | ENOENT (path : string)
  | CoreError (message : string).

Inductive Completion (A : Type) : Type :=
  | Normal (a : A)
  | Throw (e : Error).

Arguments Normal {A}.
Arguments Throw {A}.

Class Core (R : Type) : Type := {
  DIRECTORY_NAME : string;
  INJECT_SCRIPT_FILE_NAME : string;
  INJECT_STYLE_FILE_NAME : string;
  JSON_FILE_NAME : string;
  NOTIFICATION_ANCHOR_CLASS_NAME : string;
  (** What the version resolver and the script generator read besides
      their arguments: the state of the working tree, the package file, the
      clock. *)
  Env : Type;
  generateJSONFileContent : string -> option bool -> string;
  (** [generateJsFileContent template version options], run in an
      environment *)
  generateJsFileContent : Env -> string -> string -> Options R -> string;
  getFileHash : string -> string;
  (** [getVersion versionType customVersion], run in an environment *)
  getVersion : Env -> option string -> option string -> Completion string;
  get__Dirname : string
}.

(** Node's [path.resolve] for the running process. *)
Class Path : Type := {
  resolve : list string -> string
}.

(** JavaScript truthiness of an optional boolean and of an optional string. *)
Definition truthy (b : option bool) : bool :=
  match b with Some true => true | _ => false end.

Definition truthy_string (s : option string) : bool :=
  match s with
  | Some (String _ _) => true
  | _ => false
  end.

(** ** The injectors *)

Definition pluginName : string := "WebUpdateNotificationPlugin".

Section Injectors.

Context {R : Type} `{core : Core R}.

(** The template literal shared by both injectors. *)
Definition versionScript (version : string) : string :=
  "<script>window.pluginWebUpdateNotice_version = '" ++ version ++ "';</script>".

(** The replacement handed to [replace] for the closing body tag. *)
Definition anchorReplacement : string :=
  "<div class=" ++ JS.dquote ++ NOTIFICATION_ANCHOR_CLASS_NAME ++ JS.dquote ++ "></div></body>".

(** The notification anchor itself: the part of [anchorReplacement] in
    front of the closing body tag. *)
Definition anchorElement : string :=
  "<div class=" ++ JS.dquote ++ NOTIFICATION_ANCHOR_CLASS_NAME ++ JS.dquote ++ "></div>".

Definition cssLinkHtml (options : Options R) (cssFileHash : string) : string :=
  if truthy_string (customNotificationHTML options) || truthy (hiddenDefaultNotification options)
  then ""
  else "<link rel=" ++ JS.dquote ++ "stylesheet" ++ JS.dquote ++ " href=" ++ JS.dquote
       ++ default "/" (injectFileBase options) ++ DIRECTORY_NAME ++ "/"
       ++ INJECT_STYLE_FILE_NAME ++ "." ++ cssFileHash ++ ".css" ++ JS.dquote ++ ">".

Definition scriptSrcHtml (options : Options R) (jsFileHash : string) : string :=
  "<script src=" ++ JS.dquote ++ default "/" (injectFileBase options) ++ DIRECTORY_NAME ++ "/"
  ++ INJECT_SCRIPT_FILE_NAME ++ "." ++ jsFileHash ++ ".js" ++ JS.dquote ++ "></script>".

(** The replacement handed to [replace] for the head tag, linked mode. *)
Definition headReplacement (version : string) (options : Options R)
    (cssFileHash jsFileHash : string) : string :=
  "<head>" ++ JS.newline ++ "    " ++ cssLinkHtml options cssFileHash
  ++ JS.newline ++ "    " ++ scriptSrcHtml options jsFileHash
  ++ JS.newline ++ "    " ++ versionScript version.

Definition injectPluginHtml (html version : string) (options : Options R)
    (cssFileHash jsFileHash : string) : string :=
  let res := html in
  let res := JS.replace res "<head>" (headReplacement version options cssFileHash jsFileHash) in
  if negb (truthy (hiddenDefaultNotification options))
  then JS.replace res "</body>" anchorReplacement
  else res.

Definition pluginStyle (options : Options R) (injectStyleContent : string) : string :=
  if truthy_string (customNotificationHTML options) || truthy (hiddenDefaultNotification options)
  then ""
  else "<style>" ++ injectStyleContent ++ "</style>".

Definition pluginScript (injectScriptContent : string) : string :=
  "<script>" ++ injectScriptContent ++ "</script>".

(** The replacement handed to [replace] for the head tag, inline mode. *)
Definition headReplacementInline (version : string) (options : Options R)
    (injectStyleContent injectScriptContent : string) : string :=
  "<head>" ++ JS.newline ++ "        " ++ pluginStyle options injectStyleContent
  ++ JS.newline ++ "        " ++ pluginScript injectScriptContent
  ++ JS.newline ++ "        " ++ versionScript version.

Definition injectPluginHTMLInline (html version : string) (options : Options R)
    (injectStyleContent injectScriptContent : string) : string :=
  let res := html in
  let res := JS.replace res "<head>"
               (headReplacementInline version options injectStyleContent injectScriptContent) in
  if negb (truthy (hiddenDefaultNotification options))
  then JS.replace res "</body>" anchorReplacement
  else res.

End Injectors.

(** ** The build as the plugin sees it *)

(** The four [let] variables of [apply] that its two hooks share. *)
Record Locals : Type := mkLocals {
  jsFileHash : string;
  cssFileHash : string;
  injectScriptContent : string;
  injectStyleContent : string
}.

(** An entry of [compilation.assets].  The manifest's [source] closes over
    a constant of the hook call; the stylesheet's and the script's close
    over the shared variables and read them when called.  The [size] of an
    entry is the length of what [source] returns and is not kept apart. *)
Inductive Asset : Type :=
  | ManifestAsset (jsonFileContent : string)
  | StyleAsset
  | ScriptAsset.

Definition source (l : Locals) (a : Asset) : string :=
  match a with
  | ManifestAsset jsonFileContent => jsonFileContent
  | StyleAsset => injectStyleContent l
  | ScriptAsset => injectScriptContent l
  end.

(** What [console.error] received. *)
Inductive LogEntry : Type :=
  | ErrorObject (e : Error)
  | Message (text : string).

(** The state the hooks act on: the shared variables, the asset table of
    the compilation, the files on disk (path to utf8 content) and the error
    console. *)
Record World : Type := mkWorld {
  locals : Locals;
  assets : gmap string Asset;
  files : gmap string string;
  console : list LogEntry
}.

(** Hooks are computations that may throw and that change the world. *)
Definition M (A : Type) : Type := World -> Completion A * World.

Definition ret {A : Type} (a : A) : M A := fun w => (Normal a, w).

Definition throw {A : Type} (e : Error) : M A := fun w => (Throw e, w).

Definition bind {A B : Type} (m : M A) (k : A -> M B) : M B :=
  fun w =>
    match m w with
    | (Normal a, w') => k a w'
    | (Throw e, w') => (Throw e, w')
    end.

(** [try { body } catch (error) { handler }] *)
Definition try_catch {A : Type} (body : M A) (handler : Error -> M A) : M A :=
  fun w =>
    match body w with
    | (Normal a, w') => (Normal a, w')
    | (Throw e, w') => handler e w'
    end.

Notation "'do' x <- m ; k" := (bind m (fun x => k))
  (at level 10, x name, m at level 100, k at level 200).
Notation "m ;; k" := (bind m (fun _ => k))
  (at level 100, k at level 200, right associativity).

Definition get_locals : M Locals := fun w => (Normal (locals w), w).

Definition set_locals (l : Locals) : M unit :=
  fun w => (Normal tt, mkWorld l (assets w) (files w) (console w)).

(** [compilation.assets[name] = asset] *)
Definition set_asset (name : string) (a : Asset) : M unit :=
  fun w => (Normal tt, mkWorld (locals w) (<[name := a]> (assets w)) (files w) (console w)).

(** [accessSync(path, constants.F_OK)] *)
Definition accessSync (path : string) : M unit :=
  fun w =>
    match files w !! path with
    | Some _ => (Normal tt, w)
    | None => (Throw (ENOENT path), w)
    end.

(** [readFileSync(path, 'utf8')] *)
Definition readFileSync (path : string) : M string :=
  fun w =>
    match files w !! path with
    | Some content => (Normal content, w)
    | None => (Throw (ENOENT path), w)
    end.

(** [writeFileSync(path, data)] *)
Definition writeFileSync (path data : string) : M unit :=
  fun w => (Normal tt, mkWorld (locals w) (assets w) (<[path := data]> (files w)) (console w)).

(** [console.error(entry)] *)
Definition console_error (entry : LogEntry) : M unit :=
  fun w => (Normal tt, mkWorld (locals w) (assets w) (files w) (console w ++ [entry])).

(** What [apply] reads of the compiler. *)
Record Compiler : Type := mkCompiler {
  (** [compiler.options.output.publicPath], when it is a string *)
  publicPath : option string;
  outputPath : string
}.

Section Plugin.

Context {R : Type} `{core : Core R} `{path : Path}.

Definition jsonAssetName : string :=
  DIRECTORY_NAME ++ "/" ++ JSON_FILE_NAME ++ ".json".

Definition styleAssetName (hash : string) : string :=
  DIRECTORY_NAME ++ "/" ++ INJECT_STYLE_FILE_NAME ++ "." ++ hash ++ ".css".

Definition scriptAssetName (hash : string) : string :=
  DIRECTORY_NAME ++ "/" ++ INJECT_SCRIPT_FILE_NAME ++ "." ++ hash ++ ".js".

Definition styleTemplatePath : string :=
  get__Dirname ++ "/" ++ INJECT_STYLE_FILE_NAME ++ ".css".

Definition scriptTemplatePath : string :=
  resolve [get__Dirname ++ "/" ++ INJECT_SCRIPT_FILE_NAME ++ ".js"].

Definition set_injectStyleContent (s : string) : M unit :=
  do l <- get_locals;
  set_locals (mkLocals (jsFileHash l) (cssFileHash l) (injectScriptContent l) s).

Definition set_cssFileHash (s : string) : M unit :=
  do l <- get_locals;
  set_locals (mkLocals (jsFileHash l) s (injectScriptContent l) (injectStyleContent l)).

Definition set_injectScriptContent (s : string) : M unit :=
  do l <- get_locals;
  set_locals (mkLocals (jsFileHash l) (cssFileHash l) s (injectStyleContent l)).

Definition set_jsFileHash (s : string) : M unit :=
  do l <- get_locals;
  set_locals (mkLocals s (cssFileHash l) (injectScriptContent l) (injectStyleContent l)).

(** The body of [apply] up to the registration of the hooks: it fills in
    [this.options.injectFileBase] and resolves the version.  The result is
    the options object as the hooks will see it, and the version. *)
Definition apply (options : Options R) (compiler : Compiler) (env : Env)
    : Completion (Options R * string) :=
  let options :=
    match injectFileBase options with
    | None =>
        mkOptions (versionType options) (customVersion options)
          (hiddenDefaultNotification options) (customNotificationHTML options)
          (Some (default "/" (publicPath compiler)))
          (silence options) (microApp options) (indexHtmlFilePath options)
          (otherOptions options)
    | Some _ => options
    end in
  let version :=
    if decide (versionType options = Some "custom")
    then getVersion env (versionType options) (customVersion options)
    else getVersion env (versionType options) None in
  match version with
  | Normal version => Normal (options, version)
  | Throw e => Throw e
  end.

(** The callback tapped on [compiler.hooks.emit]; [env] is the environment
    at the time the hook fires. *)
Definition emit (options : Options R) (version : string) (env : Env) : M unit :=
  let jsonFileContent := generateJSONFileContent version (silence options) in
  set_asset jsonAssetName (ManifestAsset jsonFileContent) ;;
  (if negb (truthy (hiddenDefaultNotification options)) then
     do content <- readFileSync styleTemplatePath;
     set_injectStyleContent content ;;
     do l <- get_locals;
     set_cssFileHash (getFileHash (injectStyleContent l)) ;;
     do l <- get_locals;
     set_asset (styleAssetName (cssFileHash l)) StyleAsset
   else ret tt) ;;
  let filePath := scriptTemplatePath in
  do template <- readFileSync filePath;
  set_injectScriptContent (generateJsFileContent env template version options) ;;
  do l <- get_locals;
  set_jsFileHash (getFileHash (injectScriptContent l)) ;;
  do l <- get_locals;
  set_asset (scriptAssetName (jsFileHash l)) ScriptAsset.

Definition htmlFilePath (options : Options R) (compiler : Compiler) : string :=
  resolve [outputPath compiler;
           if truthy_string (indexHtmlFilePath options)
           then default "" (indexHtmlFilePath options)
           else "./index.html"].

(** The two bytes sequences are the full-width parentheses of the message. *)
Definition notFoundMessage (htmlFilePath : string) : string :=
  pluginName ++ " failed to inject the plugin into the HTML file. index.html"
  ++ String "239" (String "188" (String "136" EmptyString))
  ++ htmlFilePath
  ++ String "239" (String "188" (String "137" EmptyString))
  ++ " not found.".

(** What [afterEmit] does to the entry HTML once it is read. *)
Definition inject (options : Options R) (version : string) (l : Locals) (html : string) : string :=
  if truthy (microApp options)
  then injectPluginHTMLInline html version options (injectStyleContent l) (injectScriptContent l)
  else injectPluginHtml html version options (cssFileHash l) (jsFileHash l).

(** The callback tapped on [compiler.hooks.afterEmit]. *)
Definition afterEmit (options : Options R) (version : string) (compiler : Compiler) : M unit :=
  let htmlFilePath := htmlFilePath options compiler in
  try_catch
    (accessSync htmlFilePath ;;
     do html <- readFileSync htmlFilePath;
     do l <- get_locals;
     let html := inject options version l html in
     writeFileSync htmlFilePath html)
    (fun error =>
       console_error (ErrorObject error) ;;
       console_error (Message (notFoundMessage htmlFilePath))).

(** One build: [apply] creates the shared variables and resolves the
    version, then the host fires [emit] and [afterEmit], once each and in
    this order.  The result is the
    options object as [apply] left it, and the version.  [env] is the
    environment when [apply] runs, [env'] the one when [emit] fires. *)
Definition build (options : Options R) (compiler : Compiler) (env env' : Env)
    : M (Options R * string) :=
  set_locals (mkLocals "" "" "" "") ;;
  match apply options compiler env with
  | Throw e => throw e
  | Normal (options, version) =>
      emit options version env' ;;
      afterEmit options version compiler ;;
      ret (options, version)
  end.

End Plugin.

(** ** Vocabulary of the frame property

    [insertion_point html l r]: [html] is [l ++ r], cut either right behind
    its first opening head tag or right in front of its first closing body
    tag.  [framed html out]: [out] is [html] with some text inserted at up
    to two such points, and nothing else changed. *)

Definition insertion_point (html l r : string) : Prop :=
  (exists a, l = a ++ "<head>" /\ JS.split_first "<head>" html = Some (a, r))
  \/ (exists b, r = "</body>" ++ b /\ JS.split_first "</body>" html = Some (l, b)).

Definition framed (html out : string) : Prop :=
  exists s1 s2 s3 X Y,
    html = s1 ++ s2 ++ s3
    /\ out = s1 ++ X ++ s2 ++ Y ++ s3
    /\ (X = "" \/ insertion_point html s1 (s2 ++ s3))
    /\ (Y = "" \/ insertion_point html (s1 ++ s2) s3).

(** ** A concrete core package, to run the model on inputs

    A stand-in for the members of [Core] and [Path]: file-name constants
    free of dollar signs, a small checksum as digest, a manifest generator
    that embeds the version, a script generator that embeds the version and
    the clock of its environment, and a resolver that joins its segments. *)

Module Sample.

Fixpoint checksum (acc : N) (s : string) : N :=
  match s with
  | EmptyString => acc
  | String c s' => checksum ((acc * 31 + N_of_ascii c) mod 65521)%N s'
  end.

Fixpoint digits (fuel : nat) (n : N) (acc : string) : string :=
  match fuel with
  | O => acc
  | S fuel' =>
      let acc := String (ascii_of_N (48 + n mod 10)%N) acc in
      if (n / 10 =? 0)%N then acc else digits fuel' (n / 10)%N acc
  end.

Definition sampleHash (s : string) : string := digits 6 (checksum 7 s) "".

Definition sampleJSON (version : string) (silence : option bool) : string :=
  "{" ++ JS.dquote ++ "version" ++ JS.dquote ++ ": " ++ JS.dquote ++ version ++ JS.dquote
  ++ ", " ++ JS.dquote ++ "silence" ++ JS.dquote ++ ": "
  ++ (if truthy silence then "true" else "false") ++ "}".

(** The environment: the hash of the checked-out commit and the clock, in
    milliseconds. *)
Record Environment : Type := mkEnvironment {
  commit : string;
  clock : string
}.

(** The generated script carries the version and the time it was generated. *)
Definition sampleJs (env : Environment) (template version : string)
    (options : Options unit) : string :=
  "var v = '" ++ version ++ "', t = " ++ clock env ++ ";" ++ template.

Definition sampleVersion (env : Environment) (versionType customVersion : option string)
    : Completion string :=
  match versionType, customVersion with
  | Some "custom", Some v => Normal v
  | _, _ => Normal (commit env)
  end.

Definition core : Core unit := {|
  DIRECTORY_NAME := "pluginWebUpdateNotice";
  INJECT_SCRIPT_FILE_NAME := "webUpdateNoticeInjectScript";
  INJECT_STYLE_FILE_NAME := "webUpdateNoticeInjectStyle";
  JSON_FILE_NAME := "web_version_by_plugin";
  NOTIFICATION_ANCHOR_CLASS_NAME := "plugin-web-update-notice-anchor";
  Env := Environment;
  generateJSONFileContent := sampleJSON;
  generateJsFileContent := sampleJs;
  getFileHash := sampleHash;
  getVersion := sampleVersion;
  get__Dirname := "/core/dist"
|}.

Definition segment (s : string) : string :=
  match JS.strip_prefix "./" s with Some t => t | None => s end.

Fixpoint join (segments : list string) : string :=
  match segments with
  | [] => ""
  | [s] => segment s
  | s :: rest => segment s ++ "/" ++ join rest
  end.

Definition path : Path := {| resolve := join |}.

Definition options (hidden : option bool) (custom : option string) (micro : option bool)
    (version : string) : Options unit :=
  mkOptions (Some "custom") (Some version) hidden custom None None micro None tt.

Definition compiler : Compiler := mkCompiler (Some "/") "/dist".

Definition env : @Env unit core := mkEnvironment "4f2a9c1" "1700000000000".


Definition html : string := "<html><head></head><body></body></html>".

Definition disk (entry : option string) : gmap string string :=
  let templates : gmap string string :=
    <["/core/dist/webUpdateNoticeInjectStyle.css" := ".anchor{color:red}"]>
      (<["/core/dist/webUpdateNoticeInjectScript.js" := "poll();"]> ∅) in
  match entry with
  | Some content => <["/dist/index.html" := content]> templates
  | None => templates
  end.

Definition world (entry : option string) : World :=
  mkWorld (mkLocals "" "" "" "") ∅ (disk entry) [].

(** A world with one file removed from the disk. *)
Definition without (p : string) (w : World) : World :=
  mkWorld (locals w) (assets w) (delete p (files w)) (console w).

End Sample.

(** * Facts about strings *)

Section StringFacts.

Lemma append_nil_r (s : string) : s ++ "" = s.
Proof. induction s as [|c s IH]; simpl; [reflexivity | now rewrite IH]. Qed.

Lemma append_assoc (a b c : string) : (a ++ b) ++ c = a ++ b ++ c.
Proof. induction a as [|x a IH]; simpl; [reflexivity | now rewrite IH]. Qed.

Lemma length_append (a b : string) :
  String.length (a ++ b) = String.length a + String.length b.
Proof. induction a as [|x a IH]; simpl; [reflexivity | now rewrite IH]. Qed.

Lemma append_inv_head (a b c : string) : a ++ b = a ++ c -> b = c.
Proof.
  induction a as [|x a IH]; simpl; intros H; [exact H | ].
  injection H as H. now apply IH.
Qed.

(** Two ways of cutting one string differ by a middle piece. *)
Lemma append_eq_append (a b c d : string) :
  a ++ b = c ++ d ->
  exists k, (a = c ++ k /\ d = k ++ b) \/ (c = a ++ k /\ b = k ++ d).
Proof.
  revert c. induction a as [|x a IH]; intros c H.
  - exists c. right. simpl in *. auto.
  - destruct c as [|y c].
    + exists (String x a). left. simpl in *. auto.
    + simpl in H. injection H as Hxy H. subst y.
      destruct (IH c H) as [k [[H1 H2] | [H1 H2]]]; exists k; [left | right];
        simpl; subst; auto.
Qed.

Lemma append_inv_tail (a b c : string) : a ++ c = b ++ c -> a = b.
Proof.
  intros H.
  assert (Hlen : String.length a = String.length b).
  { apply (f_equal String.length) in H. rewrite !length_append in H. lia. }
  destruct (append_eq_append _ _ _ _ H) as [k [[H1 _] | [H1 _]]];
    rewrite H1 in Hlen; rewrite length_append in Hlen;
    destruct k; simpl in Hlen; try lia;
    rewrite append_nil_r in H1; congruence.
Qed.

Lemma strip_prefix_Some (p s t : string) :
  JS.strip_prefix p s = Some t <-> s = p ++ t.
Proof.
  revert s. induction p as [|c p IH]; intros s; simpl.
  - split; congruence.
  - destruct s as [|d s]; [split; discriminate | ].
    destruct (Ascii.eqb_spec c d) as [-> | Hne].
    + rewrite IH. split; [now intros -> | now intros [= ->]].
    + split; [discriminate | intros [= Hcd _]; now symmetry in Hcd].
Qed.

Lemma strip_prefix_app (p t : string) : JS.strip_prefix p (p ++ t) = Some t.
Proof. now apply strip_prefix_Some. Qed.

Lemma strip_prefix_None (p s : string) :
  JS.strip_prefix p s = None -> forall t, s <> p ++ t.
Proof.
  intros H t Heq. apply strip_prefix_Some in Heq. congruence.
Qed.

(** [split_first] cuts at an occurrence ... *)
Lemma split_first_Some (p s u v : string) :
  JS.split_first p s = Some (u, v) -> s = u ++ p ++ v.
Proof.
  revert u. induction s as [|c s IH]; intros u; simpl.
  - destruct (JS.strip_prefix p "") as [t|] eqn:E; [ | discriminate].
    intros [= <- <-]. now apply strip_prefix_Some in E.
  - destruct (JS.strip_prefix p (String c s)) as [t|] eqn:E.
    + intros [= <- <-]. now apply strip_prefix_Some in E.
    + destruct (JS.split_first p s) as [[u' v']|] eqn:E'; [ | discriminate].
      intros [= <- <-]. simpl. f_equal. now apply IH.
Qed.

(** ... which is the leftmost one ... *)
Lemma split_first_least (p s u v : string) :
  JS.split_first p s = Some (u, v) ->
  forall u' v', s = u' ++ p ++ v' -> String.length u <= String.length u'.
Proof.
  revert u. induction s as [|c s IH]; intros u; simpl.
  - destruct (JS.strip_prefix p "") as [t|] eqn:E; [ | discriminate].
    intros [= <- <-] u' v' _. simpl. lia.
  - destruct (JS.strip_prefix p (String c s)) as [t|] eqn:E.
    + intros [= <- <-] u' v' _. simpl. lia.
    + destruct (JS.split_first p s) as [[u1 v1]|] eqn:E'; [ | discriminate].
      intros [= <- <-] u' v' Heq.
      destruct u' as [|d u'].
      * simpl in Heq. exfalso. exact (strip_prefix_None _ _ E v' Heq).
      * simpl in Heq. injection Heq as _ Heq. simpl.
        apply le_n_S. exact (IH u1 eq_refl u' v' Heq).
Qed.

(** ... and it finds an occurrence whenever there is one. *)
Lemma split_first_None (p s : string) :
  JS.split_first p s = None -> forall u v, s <> u ++ p ++ v.
Proof.
  induction s as [|c s IH]; simpl.
  - destruct (JS.strip_prefix p "") as [t|] eqn:E; [discriminate | ].
    intros _ u v Heq. destruct u; [ | discriminate].
    exact (strip_prefix_None _ _ E v Heq).
  - destruct (JS.strip_prefix p (String c s)) as [t|] eqn:E; [discriminate | ].
    destruct (JS.split_first p s) as [[u1 v1]|] eqn:E'; [discriminate | ].
    intros _ u v Heq. destruct u as [|d u].
    + exact (strip_prefix_None _ _ E v Heq).
    + simpl in Heq. injection Heq as _ Heq. exact (IH eq_refl u v Heq).
Qed.

Lemma split_first_intro (p s u v : string) :
  s = u ++ p ++ v ->
  (forall u' v', s = u' ++ p ++ v' -> String.length u <= String.length u') ->
  JS.split_first p s = Some (u, v).
Proof.
  intros Heq Hleast.
  destruct (JS.split_first p s) as [[u1 v1]|] eqn:E.
  - pose proof (split_first_Some _ _ _ _ E) as Heq1.
    pose proof (split_first_least _ _ _ _ E _ _ Heq) as Hle1.
    pose proof (Hleast _ _ Heq1) as Hle2.
    assert (Hlen : String.length u = String.length u1) by lia.
    rewrite Heq in Heq1.
    destruct (append_eq_append _ _ _ _ Heq1) as [k [[H1 H2] | [H1 H2]]];
      rewrite H1 in Hlen; rewrite length_append in Hlen;
      destruct k; simpl in Hlen; try lia;
      rewrite append_nil_r in H1; subst; simpl in H2;
      apply append_inv_head in H2; congruence.
  - exfalso. exact (split_first_None _ _ E _ _ Heq).
Qed.

End StringFacts.

(** * Facts about replacement templates *)

Section Templates.

Variables matched preceding following : string.

Local Abbreviation expand := (JS.GetSubstitution matched preceding following).

Lemma no_dollar_app (a b : string) :
  JS.no_dollar (a ++ b) = JS.no_dollar a && JS.no_dollar b.
Proof.
  induction a as [|c a IH]; simpl; [reflexivity | ].
  rewrite IH. now rewrite andb_assoc.
Qed.

(** A template without dollar signs expands to itself. *)
Lemma GetSubstitution_plain (t : string) :
  JS.no_dollar t = true -> expand t = t.
Proof.
  induction t as [|c t IH]; simpl; [reflexivity | ].
  intros H. apply andb_true_iff in H as [Hc Ht].
  apply negb_true_iff in Hc. rewrite Hc. now rewrite IH.
Qed.

(** A plain prefix of a template is copied, and expansion goes on behind it. *)
Lemma GetSubstitution_plain_prefix (x t : string) :
  JS.no_dollar x = true -> expand (x ++ t) = x ++ expand t.
Proof.
  induction x as [|c x IH]; simpl; [reflexivity | ].
  intros H. apply andb_true_iff in H as [Hc Hx].
  apply negb_true_iff in Hc. rewrite Hc. now rewrite IH.
Qed.

(** Expansion splits in front of a character that cannot complete a
    pattern. *)
Lemma GetSubstitution_app (d : ascii) (y x : string) :
  JS.is_pattern_char d = false ->
  expand (x ++ String d y) = expand x ++ expand (String d y).
Proof.
  intros Hd.
  assert (Hbound : forall n x, String.length x <= n ->
            expand (x ++ String d y) = expand x ++ expand (String d y)).
  { clear x. induction n as [|n IH]; intros x Hlen.
    - destruct x; simpl in Hlen; [reflexivity | lia].
    - destruct x as [|c x]; [reflexivity | ].
      simpl in Hlen.
      change ((String c x ++ String d y)%string) with (String c (x ++ String d y)).
      cbn [JS.GetSubstitution].
      destruct (Ascii.eqb c "$") eqn:Ec.
      + destruct x as [|e x].
        * cbn [String.append].
          unfold JS.is_pattern_char in Hd.
          apply orb_false_iff in Hd as [Hd H4].
          apply orb_false_iff in Hd as [Hd H3].
          apply orb_false_iff in Hd as [H1 H2].
          rewrite H1, H2, H3, H4.
          cbn [JS.GetSubstitution String.append]. rewrite ?H1. reflexivity.
        * change ((String e x ++ String d y)%string) with (String e (x ++ String d y)).
          cbv iota. simpl in Hlen.
          destruct (Ascii.eqb e "$");
            [rewrite (IH x) by lia; reflexivity | ].
          destruct (Ascii.eqb e "&");
            [rewrite (IH x) by lia; now rewrite append_assoc | ].
          destruct (Ascii.eqb e "`");
            [rewrite (IH x) by lia; now rewrite append_assoc | ].
          destruct (Ascii.eqb e "'");
            [rewrite (IH x) by lia; now rewrite append_assoc | ].
          change (String e (x ++ String d y)) with ((String e x ++ String d y)%string).
          rewrite (IH (String e x)) by (simpl; lia). reflexivity.
      + rewrite (IH x) by lia. reflexivity. }
  exact (Hbound _ x (le_n _)).
Qed.

(** A plain suffix that cannot complete a pattern is copied as well. *)
Lemma GetSubstitution_plain_suffix (d : ascii) (y x : string) :
  JS.is_pattern_char d = false ->
  JS.no_dollar (String d y) = true ->
  expand (x ++ String d y) = expand x ++ String d y.
Proof.
  intros Hd Hy. rewrite (GetSubstitution_app _ _ _ Hd).
  now rewrite (GetSubstitution_plain _ Hy).
Qed.

End Templates.

(** [replace] with a plain template splices the template in. *)
Lemma replace_plain (s p t u v : string) :
  JS.split_first p s = Some (u, v) ->
  JS.no_dollar t = true ->
  JS.replace s p t = u ++ t ++ v.
Proof.
  intros Hs Ht. unfold JS.replace. rewrite Hs.
  now rewrite GetSubstitution_plain.
Qed.

Lemma replace_absent (s p t : string) :
  JS.split_first p s = None -> JS.replace s p t = s.
Proof. intros Hs. unfold JS.replace. now rewrite Hs. Qed.

(** * The emit phase *)

Lemma append_last_inj (x y : string) (c d : ascii) :
  x ++ String c "" = y ++ String d "" -> x = y /\ c = d.
Proof.
  revert y. induction x as [|a x IH]; intros [|b y]; simpl; intros H.
  - injection H as ->. auto.
  - injection H as _ H. destruct y; discriminate.
  - injection H as _ H. destruct x; discriminate.
  - injection H as -> H. destruct (IH _ H) as [-> ->]. auto.
Qed.

Lemma css_name_not_js_name (x y : string) : x ++ ".css" <> y ++ ".js".
Proof.
  intros H.
  change ".css" with (".c" ++ "s" ++ "s") in H.
  change ".js" with ("." ++ "j" ++ "s") in H.
  rewrite <- !append_assoc in H.
  apply append_last_inj in H as [H _].
  apply append_last_inj in H as [_ H]. discriminate.
Qed.

Lemma json_name_not_css_name (x y : string) : x ++ ".json" <> y ++ ".css".
Proof.
  intros H.
  change ".json" with (".jso" ++ "n") in H.
  change ".css" with (".cs" ++ "s") in H.
  rewrite <- !append_assoc in H.
  apply append_last_inj in H as [_ H]. discriminate.
Qed.

Lemma json_name_not_js_name (x y : string) : x ++ ".json" <> y ++ ".js".
Proof.
  intros H.
  change ".json" with (".jso" ++ "n") in H.
  change ".js" with (".j" ++ "s") in H.
  rewrite <- !append_assoc in H.
  apply append_last_inj in H as [_ H]. discriminate.
Qed.

Section EmitFacts.

Context {R : Type} `{core : Core R} `{path : Path}.

Lemma styleAssetName_not_script (h h' : string) :
  styleAssetName h <> scriptAssetName h'.
Proof.
  unfold styleAssetName, scriptAssetName.
  rewrite <- !(append_assoc _ _ ".css"), <- !(append_assoc _ _ ".js").
  apply css_name_not_js_name.
Qed.

Lemma jsonAssetName_not_style (h : string) : jsonAssetName <> styleAssetName h.
Proof.
  unfold styleAssetName, jsonAssetName.
  rewrite <- !(append_assoc _ _ ".css"), <- !(append_assoc _ _ ".json").
  apply json_name_not_css_name.
Qed.

Lemma jsonAssetName_not_script (h : string) : jsonAssetName <> scriptAssetName h.
Proof.
  unfold scriptAssetName, jsonAssetName.
  rewrite <- !(append_assoc _ _ ".js"), <- !(append_assoc _ _ ".json").
  apply json_name_not_js_name.
Qed.

(** [emit] with both templates on disk and the default notification shown. *)
Lemma emit_shown (options : Options R) (version : string) (env : Env) (w : World) (css template : string) :
  truthy (hiddenDefaultNotification options) = false ->
  files w !! styleTemplatePath = Some css ->
  files w !! scriptTemplatePath = Some template ->
  let js := generateJsFileContent env template version options in
  emit options version env w =
    (Normal tt,
     mkWorld (mkLocals (getFileHash js) (getFileHash css) js css)
       (<[scriptAssetName (getFileHash js) := ScriptAsset]>
          (<[styleAssetName (getFileHash css) := StyleAsset]>
             (<[jsonAssetName :=
                  ManifestAsset (generateJSONFileContent version (silence options))]>
                (assets w))))
       (files w) (console w)).
Proof.
  intros Hh Hcss Htpl js.
  unfold emit, bind, set_asset, readFileSync, set_injectStyleContent, set_cssFileHash,
    set_injectScriptContent, set_jsFileHash, get_locals, set_locals, bind, ret.
  rewrite Hh. simpl. rewrite Hcss. simpl. rewrite Htpl. reflexivity.
Qed.

(** [emit] with the default notification hidden: no stylesheet is read. *)
Lemma emit_hidden (options : Options R) (version : string) (env : Env) (w : World) (template : string) :
  truthy (hiddenDefaultNotification options) = true ->
  files w !! scriptTemplatePath = Some template ->
  let js := generateJsFileContent env template version options in
  emit options version env w =
    (Normal tt,
     mkWorld (mkLocals (getFileHash js) (cssFileHash (locals w)) js (injectStyleContent (locals w)))
       (<[scriptAssetName (getFileHash js) := ScriptAsset]>
          (<[jsonAssetName :=
               ManifestAsset (generateJSONFileContent version (silence options))]>
             (assets w)))
       (files w) (console w)).
Proof.
  intros Hh Htpl js.
  unfold emit, bind, set_asset, readFileSync, set_injectStyleContent, set_cssFileHash,
    set_injectScriptContent, set_jsFileHash, get_locals, set_locals, bind, ret.
  rewrite Hh. simpl. rewrite Htpl. reflexivity.
Qed.

(** [emit] completes only when the templates it reads are on disk. *)
Lemma emit_normal_inv (options : Options R) (version : string) (env : Env) (w : World) :
  fst (emit options version env w) = Normal tt ->
  (truthy (hiddenDefaultNotification options) = false ->
   exists css, files w !! styleTemplatePath = Some css)
  /\ exists template, files w !! scriptTemplatePath = Some template.
Proof.
  unfold emit, bind, set_asset, readFileSync, set_injectStyleContent, set_cssFileHash,
    set_injectScriptContent, set_jsFileHash, get_locals, set_locals, bind, ret.
  destruct (truthy (hiddenDefaultNotification options)); simpl.
  - destruct (files w !! scriptTemplatePath) as [t|]; simpl; [ | discriminate].
    intros _. split; [discriminate | eauto].
  - destruct (files w !! styleTemplatePath) as [c|]; simpl; [ | discriminate].
    destruct (files w !! scriptTemplatePath) as [t|]; simpl; [ | discriminate].
    intros _. split; eauto.
Qed.

Lemma styleAssetName_inj (h h' : string) : styleAssetName h = styleAssetName h' -> h = h'.
Proof.
  unfold styleAssetName. intros H.
  do 4 apply append_inv_head in H. now apply append_inv_tail in H.
Qed.

Lemma scriptAssetName_inj (h h' : string) : scriptAssetName h = scriptAssetName h' -> h = h'.
Proof.
  unfold scriptAssetName. intros H.
  do 4 apply append_inv_head in H. now apply append_inv_tail in H.
Qed.

(** What a completed [emit] has registered, in terms of the name builders. *)
Lemma emit_registered_names (options : Options R) (version : string) (env : Env) (w : World) :
  fst (emit options version env w) = Normal tt ->
  let w' := snd (emit options version env w) in
  (truthy (hiddenDefaultNotification options) = false ->
   assets w' !! styleAssetName (getFileHash (source (locals w') StyleAsset)) = Some StyleAsset)
  /\ assets w' !! scriptAssetName (getFileHash (source (locals w') ScriptAsset)) = Some ScriptAsset
  /\ forall name a,
       assets w' !! name = Some a ->
       assets w !! name <> Some a ->
       match a with
       | ManifestAsset _ => name = jsonAssetName
       | StyleAsset =>
           truthy (hiddenDefaultNotification options) = false
           /\ name = styleAssetName (getFileHash (source (locals w') StyleAsset))
       | ScriptAsset => name = scriptAssetName (getFileHash (source (locals w') ScriptAsset))
       end.
Proof.
  intros Hnormal.
  destruct (emit_normal_inv _ _ _ _ Hnormal) as [Hcss [template Htpl]].
  destruct (truthy (hiddenDefaultNotification options)) eqn:Hh.
  - rewrite (emit_hidden _ _ _ _ _ Hh Htpl). simpl.
    split; [discriminate | ]. split; [apply lookup_insert_eq | ].
    intros name a Hin Hold.
    rewrite lookup_insert in Hin. case_decide as E1.
    + injection Hin as <-. now symmetry.
    + rewrite lookup_insert in Hin. case_decide as E2.
      * injection Hin as <-. now symmetry.
      * contradiction.
  - destruct (Hcss eq_refl) as [css Hc].
    rewrite (emit_shown _ _ _ _ _ _ Hh Hc Htpl). simpl.
    split; [ | split].
    + intros _. rewrite lookup_insert_ne by (apply not_eq_sym, styleAssetName_not_script).
      apply lookup_insert_eq.
    + apply lookup_insert_eq.
    + intros name a Hin Hold.
      rewrite lookup_insert in Hin. case_decide as E1.
      * injection Hin as <-. now symmetry.
      * rewrite lookup_insert in Hin. case_decide as E2.
        -- injection Hin as <-. split; [reflexivity | now symmetry].
        -- rewrite lookup_insert in Hin. case_decide as E3.
           ++ injection Hin as <-. now symmetry.
           ++ contradiction.
Qed.

(** C1. Every hash-suffixed asset that a completed [emit] registers carries
    in its file name the hash of the very content its [source] returns.
    With [style] and [script] the contents the stylesheet and the script
    asset return once the emit phase is over: the stylesheet (unless the
    default notification is hidden) is registered under the directory name,
    a slash, the stylesheet file name, a dot, [getFileHash style] and the
    extension [.css]; the script under the directory name, a slash, the
    script file name, a dot, [getFileHash script] and the extension [.js];
    no stylesheet or script entry is written under any other name; and a
    name of this form carries no other hash than this one. *)
Theorem emit_hash_suffix_matches_content (options : Options R) (version : string)
    (env : Env) (w : World) :
  fst (emit options version env w) = Normal tt ->
  let w' := snd (emit options version env w) in
  let style := source (locals w') StyleAsset in
  let script := source (locals w') ScriptAsset in
  let styleName := fun hash : string =>
    DIRECTORY_NAME ++ "/" ++ INJECT_STYLE_FILE_NAME ++ "." ++ hash ++ ".css" in
  let scriptName := fun hash : string =>
    DIRECTORY_NAME ++ "/" ++ INJECT_SCRIPT_FILE_NAME ++ "." ++ hash ++ ".js" in
  (truthy (hiddenDefaultNotification options) = false ->
   assets w' !! styleName (getFileHash style) = Some StyleAsset)
  /\ assets w' !! scriptName (getFileHash script) = Some ScriptAsset
  /\ (forall name a,
        assets w' !! name = Some a ->
        assets w !! name <> Some a ->
        match a with
        | ManifestAsset _ => name = DIRECTORY_NAME ++ "/" ++ JSON_FILE_NAME ++ ".json"
        | StyleAsset =>
            truthy (hiddenDefaultNotification options) = false
            /\ name = styleName (getFileHash style)
        | ScriptAsset => name = scriptName (getFileHash script)
        end)
  /\ (forall hash, styleName hash = styleName (getFileHash style) -> hash = getFileHash style)
  /\ (forall hash, scriptName hash = scriptName (getFileHash script) ->
        hash = getFileHash script).
Proof.
  intros Hnormal w' style script styleName scriptName.
  destruct (emit_registered_names options version env w Hnormal) as (Hstyle & Hscript & Hall).
  split; [exact Hstyle | ]. split; [exact Hscript | ]. split; [exact Hall | ].
  split; intros hash H; [exact (styleAssetName_inj _ _ H) | exact (scriptAssetName_inj _ _ H)].
Qed.

End EmitFacts.

(** * The finalize phase and the whole build *)

Section BuildFacts.

Context {R : Type} `{core : Core R} `{path : Path}.

Lemma afterEmit_present (options : Options R) (version : string) (compiler : Compiler)
    (w : World) (html : string) :
  files w !! htmlFilePath options compiler = Some html ->
  afterEmit options version compiler w =
    (Normal tt,
     mkWorld (locals w) (assets w)
       (<[htmlFilePath options compiler := inject options version (locals w) html]> (files w))
       (console w)).
Proof.
  intros H.
  unfold afterEmit, try_catch, bind, accessSync, readFileSync, get_locals, writeFileSync.
  rewrite H. simpl. rewrite H. reflexivity.
Qed.

Lemma afterEmit_missing (options : Options R) (version : string) (compiler : Compiler)
    (w : World) :
  files w !! htmlFilePath options compiler = None ->
  afterEmit options version compiler w =
    (Normal tt,
     mkWorld (locals w) (assets w) (files w)
       ((console w ++ [ErrorObject (ENOENT (htmlFilePath options compiler))])
          ++ [Message (notFoundMessage (htmlFilePath options compiler))])).
Proof.
  intros H.
  unfold afterEmit, try_catch, bind, accessSync, readFileSync, get_locals, writeFileSync,
    console_error.
  rewrite H. reflexivity.
Qed.

(** C7. When the entry HTML file is absent, [afterEmit] returns normally
    (nothing is thrown into the build), logs the error and a message that
    spells out the resolved path of the missing file, and leaves the asset
    table, the shared variables and every file on disk as they were. *)
Theorem afterEmit_missing_entry_is_logged (options : Options R) (version : string)
    (compiler : Compiler) (w : World) :
  files w !! htmlFilePath options compiler = None ->
  let p := htmlFilePath options compiler in
  let r := afterEmit options version compiler w in
  fst r = Normal tt
  /\ console (snd r)
     = (console w ++ [ErrorObject (ENOENT p); Message (notFoundMessage p)])%list
  /\ (exists before after, notFoundMessage p = before ++ p ++ after)
  /\ assets (snd r) = assets w
  /\ files (snd r) = files w
  /\ locals (snd r) = locals w.
Proof.
  intros H p r. subst r. rewrite (afterEmit_missing _ _ _ _ H). simpl.
  repeat split.
  - now rewrite <- app_assoc.
  - unfold notFoundMessage. eexists _, _.
    rewrite <- !(append_assoc _ _ (p ++ _)). reflexivity.
Qed.

Lemma apply_again (options options' : Options R) (compiler : Compiler) (env : Env)
    (version : string) :
  apply options compiler env = Normal (options', version) ->
  apply options' compiler env = Normal (options', version).
Proof.
  unfold apply.
  destruct (injectFileBase options) as [base|] eqn:Hbase.
  - destruct (decide (versionType options = Some "custom"));
      [destruct (getVersion env (versionType options) (customVersion options)) eqn:Hv
      | destruct (getVersion env (versionType options) None) eqn:Hv];
      intros [= <- <-]; rewrite Hbase; [rewrite decide_True by assumption
                                       | rewrite decide_False by assumption];
      now rewrite Hv.
  - simpl.
    destruct (decide (versionType options = Some "custom"));
      [destruct (getVersion env (versionType options) (customVersion options)) eqn:Hv
      | destruct (getVersion env (versionType options) None) eqn:Hv];
      intros [= <- <-]; simpl; [rewrite decide_True by assumption
                               | rewrite decide_False by assumption];
      now rewrite Hv.
Qed.


Lemma apply_keeps_entry_path (options options' : Options R) (compiler : Compiler)
    (env : Env) (version : string) :
  apply options compiler env = Normal (options', version) ->
  htmlFilePath options' compiler = htmlFilePath options compiler.
Proof.
  unfold apply, htmlFilePath.
  destruct (injectFileBase options);
    match goal with |- context [match ?v with Normal _ => _ | Throw _ => _ end] =>
      destruct v end; intros [= <- <-]; reflexivity.
Qed.



Lemma cssLinkHtml_custom (options : Options R) (hash : string) :
  truthy_string (customNotificationHTML options) = true ->
  cssLinkHtml options hash = "".
Proof. intros H. unfold cssLinkHtml. now rewrite H. Qed.

(** C10. With a custom notification markup configured and the default
    notification not hidden, [emit] still reads the stylesheet, hashes it
    and registers it under its hashed name, while linked injection leaves
    the stylesheet link out: the link text is empty and the injected HTML
    is the same whatever the stylesheet hash is. *)
Theorem custom_markup_style_emitted_but_unlinked (options : Options R) (version : string)
    (env : Env) (w : World) (css template : string) :
  truthy_string (customNotificationHTML options) = true ->
  truthy (hiddenDefaultNotification options) = false ->
  files w !! styleTemplatePath = Some css ->
  files w !! scriptTemplatePath = Some template ->
  let r := emit options version env w in
  fst r = Normal tt
  /\ assets (snd r) !! styleAssetName (getFileHash css) = Some StyleAsset
  /\ source (locals (snd r)) StyleAsset = css
  /\ cssFileHash (locals (snd r)) = getFileHash css
  /\ cssLinkHtml options (cssFileHash (locals (snd r))) = ""
  /\ forall html hash,
       injectPluginHtml html version options (cssFileHash (locals (snd r)))
         (jsFileHash (locals (snd r)))
       = injectPluginHtml html version options hash (jsFileHash (locals (snd r))).
Proof.
  intros Hcustom Hshown Hcss Htpl r. subst r.
  rewrite (emit_shown _ _ _ _ _ _ Hshown Hcss Htpl). simpl.
  repeat split.
  - rewrite lookup_insert_ne by (apply not_eq_sym, styleAssetName_not_script).
    apply lookup_insert_eq.
  - now apply cssLinkHtml_custom.
  - intros html hash. unfold injectPluginHtml, headReplacement.
    now rewrite !cssLinkHtml_custom.
Qed.

End BuildFacts.

(** * First occurrences under insertion *)

Section Occurrences.

Lemma append_eq_shorter (x y u w : string) :
  x ++ y = u ++ w -> String.length u <= String.length x ->
  exists j, x = u ++ j /\ w = j ++ y.
Proof.
  intros H Hlen.
  destruct (append_eq_append _ _ _ _ H) as [k [[H1 H2] | [H1 H2]]]; [eauto | ].
  rewrite H1, length_append in Hlen.
  destruct k; simpl in Hlen; [ | lia].
  exists "". rewrite append_nil_r in *. simpl in *. auto.
Qed.

Lemma append_eq_longer (x y u w : string) :
  x ++ y = u ++ w -> String.length x <= String.length u ->
  exists j, u = x ++ j /\ y = j ++ w.
Proof.
  intros H Hlen. symmetry in H.
  exact (append_eq_shorter _ _ _ _ H Hlen).
Qed.

(** Whether [p] starts a string is decided by its first [length p] bytes. *)
Lemma strip_prefix_None_ext (p x r r' : string) :
  JS.strip_prefix p (x ++ r) = None ->
  String.length p <= String.length x ->
  JS.strip_prefix p (x ++ r') = None.
Proof.
  intros Hnone Hlen.
  destruct (JS.strip_prefix p (x ++ r')) as [t|] eqn:E; [ | reflexivity].
  apply strip_prefix_Some in E.
  destruct (append_eq_shorter _ _ _ _ E Hlen) as [j [Hx _]].
  exfalso. apply (strip_prefix_None _ _ Hnone (j ++ r)).
  rewrite Hx. now rewrite append_assoc.
Qed.

(** The first occurrence does not depend on what follows it. *)
Lemma split_first_extend (p u r r' : string) :
  JS.split_first p (u ++ p ++ r) = Some (u, r) ->
  JS.split_first p (u ++ p ++ r') = Some (u, r').
Proof.
  induction u as [|c u IH].
  - intros _. cbn [String.append].
    pose proof (strip_prefix_app p r') as H.
    destruct (p ++ r')%string; simpl; now rewrite H.
  - cbn [String.append JS.split_first].
    destruct (JS.strip_prefix p (String c (u ++ p ++ r))) as [t|] eqn:E;
      [intros [= ? ?]; discriminate | ].
    assert (E' : JS.strip_prefix p (String c (u ++ p ++ r')) = None).
    { change (String c (u ++ p ++ r')) with (String c u ++ p ++ r').
      rewrite <- append_assoc.
      apply (strip_prefix_None_ext p _ r).
      - rewrite append_assoc. exact E.
      - rewrite length_append. lia. }
    rewrite E'.
    destruct (JS.split_first p (u ++ p ++ r)) as [[u1 v1]|] eqn:E1; [ | discriminate].
    intros [= -> ->]. now rewrite (IH eq_refl).
Qed.

(** Removing an insertion that no occurrence of [p] straddles keeps the
    first occurrence behind it where it was. *)
Lemma split_first_remove_insert (p x ins m v : string) :
  JS.split_first p (x ++ ins ++ m ++ p ++ v) = Some (x ++ ins ++ m, v) ->
  (forall u' v', x ++ m ++ p ++ v = u' ++ p ++ v' ->
     String.length u' + String.length p <= String.length x
     \/ String.length x <= String.length u') ->
  JS.split_first p (x ++ m ++ p ++ v) = Some (x ++ m, v).
Proof.
  intros Hfirst Hstraddle.
  apply split_first_intro; [now rewrite append_assoc | ].
  intros u' v' Heq.
  destruct (Hstraddle _ _ Heq) as [Hin | Hbehind].
  - rewrite <- (append_assoc u' p v') in Heq.
    destruct (append_eq_shorter _ _ _ _ Heq) as [j [Hx _]];
      [rewrite length_append; lia | ].
    assert (Hres : x ++ ins ++ m ++ p ++ v = u' ++ p ++ j ++ ins ++ m ++ p ++ v).
    { rewrite Hx at 1. now rewrite !append_assoc. }
    pose proof (split_first_least _ _ _ _ Hfirst _ _ Hres) as Hle.
    rewrite !length_append in *. lia.
  - destruct (append_eq_longer _ _ _ _ Heq Hbehind) as [j [Hu Hy]].
    assert (Hres : x ++ ins ++ m ++ p ++ v = (x ++ ins ++ j) ++ p ++ v').
    { rewrite Hy. now rewrite !append_assoc. }
    pose proof (split_first_least _ _ _ _ Hfirst _ _ Hres) as Hle.
    rewrite Hu. rewrite !length_append in *. lia.
Qed.

(** No closing body tag overlaps the end of an opening head tag. *)
Lemma body_not_across_head (a y u' v' : string) :
  (a ++ "<head>") ++ y = u' ++ "</body>" ++ v' ->
  String.length u' + String.length "</body>" <= String.length (a ++ "<head>")
  \/ String.length (a ++ "<head>") <= String.length u'.
Proof.
  intros Heq.
  destruct (le_lt_dec (String.length (a ++ "<head>")) (String.length u')) as [Hle | Hlt];
    [now right | left].
  destruct (append_eq_shorter _ _ _ _ Heq) as [j [Hx Hj]]; [lia | ].
  destruct (le_lt_dec 7 (String.length j)) as [Hlong | Hshort].
  { rewrite Hx, length_append. simpl. lia. }
  exfalso.
  assert (Hjne : j <> "").
  { intros ->. rewrite append_nil_r in Hx. rewrite Hx in Hlt. lia. }
  (* [j] is at most six bytes long, so it is a suffix of the head tag *)
  assert (Hsuffix : exists y1, "<head>" = y1 ++ j).
  { symmetry in Hx.
    destruct (append_eq_append _ _ _ _ Hx) as [k [[H1 H2] | [H1 H2]]].
    - eauto.
    - destruct k as [|c k]; [exists ""; now simpl in * | ].
      apply (f_equal String.length) in H2. rewrite length_append in H2.
      simpl in H2. lia. }
  destruct Hsuffix as [y1 Hy1].
  do 6 (destruct y1 as [|? y1];
        [simpl in Hy1; subst j; simpl in Hj; congruence | ];
        simpl in Hy1; injection Hy1 as <- Hy1).
  destruct y1; simpl in Hy1; [subst j; congruence | discriminate].
Qed.

End Occurrences.

(** * The frame of the injection *)

Section Frame.

Context {R : Type} `{core : Core R}.

Lemma anchorReplacement_element : anchorReplacement = anchorElement ++ "</body>".
Proof.
  unfold anchorReplacement, anchorElement. now rewrite !append_assoc.
Qed.

(** Whatever the class name is, the expansion of [anchorReplacement] ends
    with the closing body tag it replaces. *)
Lemma anchorReplacement_expands (m p f : string) :
  exists A, JS.GetSubstitution m p f anchorReplacement = A ++ "</body>".
Proof.
  unfold anchorReplacement.
  rewrite <- (append_assoc _ NOTIFICATION_ANCHOR_CLASS_NAME).
  rewrite <- (append_assoc "<div class=").
  change (JS.dquote ++ "></div></body>") with (String "034"%char "></div></body>").
  rewrite GetSubstitution_plain_suffix by reflexivity.
  eexists (_ ++ String "034"%char "></div>").
  now rewrite append_assoc.
Qed.

Lemma headReplacement_expands (m p f version : string) (options : Options R)
    (cssFileHash jsFileHash : string) :
  exists I,
    JS.GetSubstitution m p f (headReplacement version options cssFileHash jsFileHash)
    = "<head>" ++ I.
Proof.
  unfold headReplacement.
  rewrite GetSubstitution_plain_prefix by reflexivity. eauto.
Qed.

Lemma headReplacementInline_expands (m p f version : string) (options : Options R)
    (style script : string) :
  exists I,
    JS.GetSubstitution m p f (headReplacementInline version options style script)
    = "<head>" ++ I.
Proof.
  unfold headReplacementInline.
  rewrite GetSubstitution_plain_prefix by reflexivity. eauto.
Qed.

(** Both head replacements end with the version script, and [replace]
    expands the patterns of the version inside it: a version [$&] is
    replaced by the matched head tag, whatever the core package is. *)
Lemma headReplacement_version_part (m p f version : string) (options : Options R)
    (cssFileHash jsFileHash : string) :
  exists I,
    JS.GetSubstitution m p f (headReplacement version options cssFileHash jsFileHash)
    = I ++ JS.GetSubstitution m p f (versionScript version).
Proof.
  unfold headReplacement.
  rewrite <- !(append_assoc _ _ (JS.newline ++ "    " ++ versionScript version)).
  change (JS.newline ++ "    " ++ versionScript version)
    with (String "010"%char ("    " ++ versionScript version)).
  rewrite GetSubstitution_app by reflexivity.
  change (String "010"%char ("    " ++ versionScript version))
    with ((JS.newline ++ "    ") ++ versionScript version).
  rewrite (GetSubstitution_plain_prefix _ _ _ (JS.newline ++ "    ")) by reflexivity.
  eexists. now rewrite <- append_assoc.
Qed.

Lemma version_script_matched_pattern (m p f : string) :
  JS.GetSubstitution m p f (versionScript "$&") = versionScript m.
Proof. reflexivity. Qed.

Lemma linked_version_pattern_expanded (html a b : string) (options : Options R)
    (cssFileHash jsFileHash : string) :
  JS.split_first "<head>" html = Some (a, b) ->
  exists I,
    JS.replace html "<head>" (headReplacement "$&" options cssFileHash jsFileHash)
    = a ++ I ++ versionScript "<head>" ++ b.
Proof.
  intros Hhead. unfold JS.replace. rewrite Hhead.
  destruct (headReplacement_version_part "<head>" a b "$&" options cssFileHash jsFileHash)
    as [I ->].
  rewrite version_script_matched_pattern. exists I. now rewrite append_assoc.
Qed.

Lemma framed_refl (html : string) : framed html html.
Proof.
  exists html, "", "", "", "". simpl. rewrite !append_nil_r. auto.
Qed.

Lemma framed_head_only (html a b I : string) :
  JS.split_first "<head>" html = Some (a, b) ->
  framed html (a ++ "<head>" ++ I ++ b).
Proof.
  intros Hhead. pose proof (split_first_Some _ _ _ _ Hhead) as Hhtml.
  exists (a ++ "<head>"), b, "", I, "". rewrite !append_nil_r.
  repeat split.
  - now rewrite append_assoc.
  - now rewrite !append_assoc.
  - right. left. eauto.
  - now left.
Qed.

Lemma framed_body_only (html u v A : string) :
  JS.split_first "</body>" html = Some (u, v) ->
  framed html (u ++ A ++ "</body>" ++ v).
Proof.
  intros Hbody. pose proof (split_first_Some _ _ _ _ Hbody) as Hhtml.
  exists u, ("</body>" ++ v), "", A, "". rewrite !append_nil_r.
  repeat split; auto.
  right. right. eauto.
Qed.

(** A closing body tag in front of a head tag lies wholly in front of it,
    and one that starts at or behind a head tag starts behind the tag. *)
Lemma body_before_head (k x v : string) :
  "</body>" ++ v = k ++ "<head>" ++ x ->
  exists k', k = "</body>" ++ k' /\ v = k' ++ "<head>" ++ x.
Proof.
  intros Hk.
  do 7 (destruct k as [|? k]; [simpl in Hk; congruence | ];
        simpl in Hk; injection Hk as <- Hk).
  exists k. split; [reflexivity | exact Hk].
Qed.

Lemma body_behind_head (k x v : string) :
  "<head>" ++ x = k ++ "</body>" ++ v ->
  exists k', k = "<head>" ++ k' /\ x = k' ++ "</body>" ++ v.
Proof.
  intros Hk.
  do 6 (destruct k as [|? k]; [simpl in Hk; congruence | ];
        simpl in Hk; injection Hk as <- Hk).
  exists k. split; [reflexivity | exact Hk].
Qed.

Lemma framed_both (html a b I u v A : string) :
  JS.split_first "<head>" html = Some (a, b) ->
  JS.split_first "</body>" (a ++ "<head>" ++ I ++ b) = Some (u, v) ->
  framed html (u ++ A ++ "</body>" ++ v).
Proof.
  intros Hhead Hbody.
  pose proof (split_first_Some _ _ _ _ Hhead) as Hhtml.
  pose proof (split_first_Some _ _ _ _ Hbody) as Hres.
  destruct (append_eq_append _ _ _ _ Hres) as [k0 [[Ha Hk] | [Hu Hk]]].
  - (* the closing body tag starts in front of the head tag *)
    destruct (body_before_head _ _ _ Hk) as [k [-> Hv]].
    exists u, ("</body>" ++ k ++ "<head>"), b, A, I.
    repeat split.
    + rewrite Hhtml, Ha. now rewrite !append_assoc.
    + rewrite Hv. now rewrite !append_assoc.
    + right. right. exists (k ++ "<head>" ++ b). split; [now rewrite !append_assoc | ].
      rewrite Hhtml, Ha, !append_assoc.
      apply (split_first_extend _ _ (k ++ "<head>" ++ I ++ b)).
      rewrite Ha, Hv, !append_assoc in Hbody. exact Hbody.
    + right. left. exists a. split; [ | exact Hhead].
      rewrite Ha. now rewrite !append_assoc.
  - (* it starts behind the head tag *)
    destruct (body_behind_head _ _ _ Hk) as [k [-> Hk']].
    destruct (append_eq_append _ _ _ _ Hk') as [m [[HI Hm] | [Hkm Hb]]].
    + (* inside the text inserted behind the head tag, or right behind it *)
      exists (a ++ "<head>"), b, "", (k ++ A ++ m), "". rewrite !append_nil_r.
      repeat split.
      * rewrite Hhtml. now rewrite append_assoc.
      * rewrite Hu, Hm. now rewrite !append_assoc.
      * right. left. eauto.
      * now left.
    + (* in the text that followed the head tag *)
      exists (a ++ "<head>"), m, ("</body>" ++ v), I, A.
      repeat split.
      * rewrite Hhtml, Hb. now rewrite !append_assoc.
      * rewrite Hu, Hkm. now rewrite !append_assoc.
      * right. left. exists a. split; [reflexivity | ]. now rewrite <- Hb.
      * right. right. exists v. split; [reflexivity | ].
        rewrite Hhtml, Hb.
        rewrite <- (append_assoc a "<head>").
        apply (split_first_remove_insert _ _ I).
        -- rewrite Hu, Hkm, Hb in Hbody. rewrite !append_assoc in *. exact Hbody.
        -- intros u' v'. apply body_not_across_head.
Qed.

End Frame.

(** * The injectors *)

Section InjectionFacts.

Context {R : Type} `{core : Core R}.

(** The second step of both injectors, given what the first one produced. *)
Lemma anchor_step_framed (html res : string) (hidden : bool) :
  (JS.split_first "<head>" html = None /\ res = html
   \/ exists a b I, JS.split_first "<head>" html = Some (a, b)
                    /\ res = a ++ "<head>" ++ I ++ b) ->
  framed html (if negb hidden then JS.replace res "</body>" anchorReplacement else res).
Proof.
  intros Hres.
  assert (Hfirst : framed html res).
  { destruct Hres as [[_ ->] | [a [b [I [Hhead ->]]]]];
      [apply framed_refl | now apply framed_head_only]. }
  destruct hidden; simpl; [exact Hfirst | ].
  unfold JS.replace.
  destruct (JS.split_first "</body>" res) as [[u v]|] eqn:Hbody; [ | exact Hfirst].
  destruct (anchorReplacement_expands "</body>" u v) as [A ->].
  rewrite append_assoc.
  destruct Hres as [[_ ->] | [a [b [I [Hhead ->]]]]].
  - now apply framed_body_only.
  - now apply (framed_both _ a b I).
Qed.

Lemma replace_head_cases (html template : string) :
  (forall m p f, exists I, JS.GetSubstitution m p f template = "<head>" ++ I) ->
  JS.split_first "<head>" html = None /\ JS.replace html "<head>" template = html
  \/ exists a b I, JS.split_first "<head>" html = Some (a, b)
                   /\ JS.replace html "<head>" template = a ++ "<head>" ++ I ++ b.
Proof.
  intros Hexp. unfold JS.replace.
  destruct (JS.split_first "<head>" html) as [[a b]|]; [right | now left].
  destruct (Hexp "<head>" a b) as [I ->].
  exists a, b, I. now rewrite append_assoc.
Qed.

(** C8. Both injectors only insert text, at no more than two places of the
    input: right behind its first literal opening head tag and right in front
    of its first literal closing body tag.  Every byte of the input is kept,
    in order, whatever the version, the options, the hashes and the
    generated contents are. *)
Theorem injection_preserves_input (html version : string) (options : Options R) :
  (forall cssFileHash jsFileHash,
     framed html (injectPluginHtml html version options cssFileHash jsFileHash))
  /\ (forall injectStyleContent injectScriptContent,
        framed html
          (injectPluginHTMLInline html version options injectStyleContent injectScriptContent)).
Proof.
  split; intros x y; [unfold injectPluginHtml | unfold injectPluginHTMLInline];
    apply anchor_step_framed; apply replace_head_cases; intros m p f;
    [apply headReplacement_expands | apply headReplacementInline_expands].
Qed.

(** With a class name free of dollar signs the anchor is inserted as it is
    written. *)
Lemma replace_anchor (res u v : string) :
  JS.no_dollar NOTIFICATION_ANCHOR_CLASS_NAME = true ->
  JS.split_first "</body>" res = Some (u, v) ->
  JS.replace res "</body>" anchorReplacement = u ++ anchorElement ++ "</body>" ++ v.
Proof.
  intros Hclass Hbody.
  rewrite (replace_plain _ _ _ _ _ Hbody).
  - rewrite anchorReplacement_element. now rewrite append_assoc.
  - unfold anchorReplacement. rewrite !no_dollar_app, Hclass. reflexivity.
Qed.

(** Nothing in front of the first occurrence contains the pattern. *)
Lemma split_first_before (p s u v : string) :
  p <> "" -> JS.split_first p s = Some (u, v) -> JS.includes u p = false.
Proof.
  intros Hp Hs. unfold JS.includes.
  destruct (JS.split_first p u) as [[x y]|] eqn:E; [exfalso | reflexivity].
  pose proof (split_first_Some _ _ _ _ E) as Hu.
  pose proof (split_first_Some _ _ _ _ Hs) as Heq.
  assert (Heq' : s = x ++ p ++ y ++ p ++ v).
  { rewrite Heq, Hu. now rewrite !append_assoc. }
  pose proof (split_first_least _ _ _ _ Hs _ _ Heq') as Hle.
  rewrite Hu, !length_append in Hle.
  destruct p; [congruence | simpl in Hle; lia].
Qed.

(** C2 (amended). In both modes: when [hiddenDefaultNotification] is true
    no anchor is inserted, the result is the text left by the head
    insertion; otherwise, when that text contains a closing body tag,
    exactly one anchor element, a div with the class name
    [NOTIFICATION_ANCHOR_CLASS_NAME], is inserted right in front of the first
    one, and when it contains none, no anchor is inserted. *)
Theorem anchor_inserted_before_first_body (options : Options R) (version : string)
    (l : Locals) (html : string) :
  JS.no_dollar NOTIFICATION_ANCHOR_CLASS_NAME = true ->
  let res :=
    JS.replace html "<head>"
      (if truthy (microApp options)
       then headReplacementInline version options (injectStyleContent l) (injectScriptContent l)
       else headReplacement version options (cssFileHash l) (jsFileHash l)) in
  if truthy (hiddenDefaultNotification options)
  then inject options version l html = res
  else match JS.split_first "</body>" res with
       | Some (before, after) =>
           res = before ++ "</body>" ++ after
           /\ JS.includes before "</body>" = false
           /\ inject options version l html = before ++ anchorElement ++ "</body>" ++ after
       | None => inject options version l html = res
       end.
Proof.
  intros Hclass res.
  assert (Hinject : inject options version l html
                    = if negb (truthy (hiddenDefaultNotification options))
                      then JS.replace res "</body>" anchorReplacement else res).
  { unfold inject, injectPluginHtml, injectPluginHTMLInline. subst res.
    now destruct (truthy (microApp options)). }
  rewrite Hinject.
  destruct (truthy (hiddenDefaultNotification options)); cbn [negb]; [reflexivity | ].
  destruct (JS.split_first "</body>" res) as [[before after]|] eqn:Hbody.
  - split; [now apply split_first_Some | ].
    split; [apply (split_first_before "</body>" res before after); [discriminate | exact Hbody] | ].
    now apply replace_anchor.
  - now apply replace_absent.
Qed.

End InjectionFacts.

Section ModeFacts.

Context {R : Type} `{core : Core R} `{path : Path}.

Lemma includes_false (s p : string) :
  JS.includes s p = false -> JS.split_first p s = None.
Proof.
  unfold JS.includes. destruct (JS.split_first p s); [discriminate | reflexivity].
Qed.

(** C6 (amended). A document without the opening head tag or without the
    closing body tag is not reported: with the entry file on disk
    [afterEmit] returns normally, logs nothing and writes back what the
    injector returns.  For a document without the head tag the head
    insertion is skipped, and the document is written back unchanged when it
    has no closing body tag either; when the text left by the head insertion
    has no closing body tag, the anchor insertion is skipped. *)
Theorem missing_markers_are_skipped_silently (options : Options R) (version : string)
    (compiler : Compiler) (w : World) (html : string) :
  files w !! htmlFilePath options compiler = Some html ->
  let r := afterEmit options version compiler w in
  let out := inject options version (locals w) html in
  let res :=
    JS.replace html "<head>"
      (if truthy (microApp options)
       then headReplacementInline version options
              (injectStyleContent (locals w)) (injectScriptContent (locals w))
       else headReplacement version options (cssFileHash (locals w)) (jsFileHash (locals w))) in
  fst r = Normal tt
  /\ console (snd r) = console w
  /\ files (snd r) !! htmlFilePath options compiler = Some out
  /\ (JS.includes html "<head>" = false ->
      res = html
      /\ out = if truthy (hiddenDefaultNotification options) then html
               else JS.replace html "</body>" anchorReplacement)
  /\ (JS.includes html "<head>" = false -> JS.includes html "</body>" = false -> out = html)
  /\ (JS.includes res "</body>" = false -> out = res).
Proof.
  intros Hentry r out res. subst r.
  rewrite (afterEmit_present _ _ _ _ _ Hentry). simpl.
  assert (Hout : out = if negb (truthy (hiddenDefaultNotification options))
                       then JS.replace res "</body>" anchorReplacement else res).
  { subst out res. unfold inject, injectPluginHtml, injectPluginHTMLInline.
    now destruct (truthy (microApp options)). }
  assert (Hres : JS.includes html "<head>" = false -> res = html).
  { intros H. subst res. apply replace_absent. now apply includes_false. }
  split; [reflexivity | ]. split; [reflexivity | ].
  split; [apply lookup_insert_eq | ].
  split; [ | split].
  - intros H. split; [now apply Hres | ].
    rewrite Hout, (Hres H).
    now destruct (truthy (hiddenDefaultNotification options)).
  - intros H1 H2. rewrite Hout, (Hres H1).
    destruct (truthy (hiddenDefaultNotification options)); cbn [negb]; [reflexivity | ].
    apply replace_absent. now apply includes_false.
  - intros H. rewrite Hout.
    destruct (truthy (hiddenDefaultNotification options)); cbn [negb]; [reflexivity | ].
    apply replace_absent. now apply includes_false.
Qed.

(** C3 (amended). On a document with an opening head tag and for a version
    free of dollar signs, the two modes insert texts of different shapes
    behind the first head tag.  Inline mode inserts a style element, left
    out when [hiddenDefaultNotification] is true or a custom notification
    markup is set, a script element and the version script; the bodies of the
    two elements are the contents of the stylesheet and script assets, byte
    for byte, when these contain no dollar sign, and the result does not
    depend on the hashes.  Linked mode inserts a stylesheet link, left out
    under the same condition, a script reference and the version script, when
    the base path, the file-name constants and the hashes contain no dollar
    sign; its result does not depend on the generated contents. *)
Theorem injection_modes_insert_distinct_shapes (options : Options R) (version : string)
    (l : Locals) (html a b : string) :
  JS.split_first "<head>" html = Some (a, b) ->
  JS.no_dollar version = true ->
  let finish := fun res : string =>
    if truthy (hiddenDefaultNotification options) then res
    else JS.replace res "</body>" anchorReplacement in
  let omitted :=
    truthy_string (customNotificationHTML options)
    || truthy (hiddenDefaultNotification options) in
  let base := default "/" (injectFileBase options) in
  (truthy (microApp options) = true ->
   (JS.no_dollar (source l StyleAsset) = true ->
    JS.no_dollar (source l ScriptAsset) = true ->
    inject options version l html
    = finish (a ++ "<head>"
              ++ JS.newline ++ "        "
              ++ (if omitted then "" else "<style>" ++ source l StyleAsset ++ "</style>")
              ++ JS.newline ++ "        "
              ++ ("<script>" ++ source l ScriptAsset ++ "</script>")
              ++ JS.newline ++ "        "
              ++ versionScript version ++ b))
   /\ forall l',
        injectStyleContent l' = injectStyleContent l ->
        injectScriptContent l' = injectScriptContent l ->
        inject options version l' html = inject options version l html)
  /\ (truthy (microApp options) = false ->
      (JS.no_dollar base = true ->
       JS.no_dollar DIRECTORY_NAME = true ->
       JS.no_dollar INJECT_STYLE_FILE_NAME = true ->
       JS.no_dollar INJECT_SCRIPT_FILE_NAME = true ->
       JS.no_dollar (cssFileHash l) = true ->
       JS.no_dollar (jsFileHash l) = true ->
       inject options version l html
       = finish (a ++ "<head>"
                 ++ JS.newline ++ "    "
                 ++ (if omitted then ""
                     else "<link rel=" ++ JS.dquote ++ "stylesheet" ++ JS.dquote
                          ++ " href=" ++ JS.dquote ++ base ++ DIRECTORY_NAME ++ "/"
                          ++ INJECT_STYLE_FILE_NAME ++ "." ++ cssFileHash l ++ ".css"
                          ++ JS.dquote ++ ">")
                 ++ JS.newline ++ "    "
                 ++ ("<script src=" ++ JS.dquote ++ base ++ DIRECTORY_NAME ++ "/"
                     ++ INJECT_SCRIPT_FILE_NAME ++ "." ++ jsFileHash l ++ ".js"
                     ++ JS.dquote ++ "></script>")
                 ++ JS.newline ++ "    "
                 ++ versionScript version ++ b))
      /\ forall l',
           cssFileHash l' = cssFileHash l ->
           jsFileHash l' = jsFileHash l ->
           inject options version l' html = inject options version l html).
Proof.
  intros Hhead Hversion finish omitted base. split; intros Hmode.
  - split.
    + cbn [source]. intros Hstyle Hscript.
      unfold inject. rewrite Hmode. unfold injectPluginHTMLInline.
      rewrite (replace_plain _ _ _ _ _ Hhead).
      * subst finish. cbv beta.
        unfold headReplacementInline, pluginStyle, pluginScript. fold omitted.
        rewrite !append_assoc.
        now destruct (truthy (hiddenDefaultNotification options)).
      * unfold headReplacementInline, pluginStyle, pluginScript, versionScript.
        destruct (truthy_string (customNotificationHTML options)
                  || truthy (hiddenDefaultNotification options));
          rewrite !no_dollar_app, ?Hstyle, Hscript, Hversion; reflexivity.
    + intros l' Hs Hj. unfold inject. rewrite Hmode. now rewrite Hs, Hj.
  - split.
    + intros Hbase Hdir Hsname Hjname Hcss Hjs.
      unfold inject. rewrite Hmode. unfold injectPluginHtml.
      rewrite (replace_plain _ _ _ _ _ Hhead).
      * subst finish. cbv beta.
        unfold headReplacement, cssLinkHtml, scriptSrcHtml. fold omitted. fold base.
        rewrite !append_assoc.
        now destruct (truthy (hiddenDefaultNotification options)).
      * unfold headReplacement, cssLinkHtml, scriptSrcHtml, versionScript. fold base.
        destruct (truthy_string (customNotificationHTML options)
                  || truthy (hiddenDefaultNotification options));
          rewrite !no_dollar_app, ?Hsname, ?Hcss, Hbase, Hdir, Hjname, Hjs, Hversion;
          reflexivity.
    + intros l' Hc Hj. unfold inject. rewrite Hmode. now rewrite Hc, Hj.
Qed.

End ModeFacts.

(** * More about the hooks *)

Section HookFacts.

Context {R : Type} `{core : Core R} `{path : Path}.

Lemma emit_style_missing (options : Options R) (version : string) (env : Env) (w : World) :
  truthy (hiddenDefaultNotification options) = false ->
  files w !! styleTemplatePath = None ->
  emit options version env w =
    (Throw (ENOENT styleTemplatePath),
     mkWorld (locals w)
       (<[jsonAssetName :=
            ManifestAsset (generateJSONFileContent version (silence options))]> (assets w))
       (files w) (console w)).
Proof.
  intros Hh Hcss.
  unfold emit, bind, set_asset, readFileSync, set_injectStyleContent, set_cssFileHash,
    set_injectScriptContent, set_jsFileHash, get_locals, set_locals, bind, ret.
  rewrite Hh. simpl. rewrite Hcss. reflexivity.
Qed.

Lemma emit_script_missing_shown (options : Options R) (version : string) (env : Env) (w : World)
    (css : string) :
  truthy (hiddenDefaultNotification options) = false ->
  files w !! styleTemplatePath = Some css ->
  files w !! scriptTemplatePath = None ->
  emit options version env w =
    (Throw (ENOENT scriptTemplatePath),
     mkWorld
       (mkLocals (jsFileHash (locals w)) (getFileHash css)
          (injectScriptContent (locals w)) css)
       (<[styleAssetName (getFileHash css) := StyleAsset]>
          (<[jsonAssetName :=
               ManifestAsset (generateJSONFileContent version (silence options))]>
             (assets w)))
       (files w) (console w)).
Proof.
  intros Hh Hcss Htpl.
  unfold emit, bind, set_asset, readFileSync, set_injectStyleContent, set_cssFileHash,
    set_injectScriptContent, set_jsFileHash, get_locals, set_locals, bind, ret.
  rewrite Hh. simpl. rewrite Hcss. simpl. rewrite Htpl. reflexivity.
Qed.

Lemma emit_script_missing_hidden (options : Options R) (version : string) (env : Env) (w : World) :
  truthy (hiddenDefaultNotification options) = true ->
  files w !! scriptTemplatePath = None ->
  emit options version env w =
    (Throw (ENOENT scriptTemplatePath),
     mkWorld (locals w)
       (<[jsonAssetName :=
            ManifestAsset (generateJSONFileContent version (silence options))]> (assets w))
       (files w) (console w)).
Proof.
  intros Hh Htpl.
  unfold emit, bind, set_asset, readFileSync, set_injectStyleContent, set_cssFileHash,
    set_injectScriptContent, set_jsFileHash, get_locals, set_locals, bind, ret.
  rewrite Hh. simpl. rewrite Htpl. reflexivity.
Qed.

(** The five ways [emit] can go, by what is on disk. *)
Lemma emit_cases (options : Options R) (version : string) (env : Env) (w : World) :
  let json := ManifestAsset (generateJSONFileContent version (silence options)) in
  let l := locals w in
  (exists template,
     let js := generateJsFileContent env template version options in
     emit options version env w
     = (Normal tt,
        mkWorld (mkLocals (getFileHash js) (cssFileHash l) js (injectStyleContent l))
          (<[scriptAssetName (getFileHash js) := ScriptAsset]>
             (<[jsonAssetName := json]> (assets w)))
          (files w) (console w)))
  \/ (exists css template,
        let js := generateJsFileContent env template version options in
        emit options version env w
        = (Normal tt,
           mkWorld (mkLocals (getFileHash js) (getFileHash css) js css)
             (<[scriptAssetName (getFileHash js) := ScriptAsset]>
                (<[styleAssetName (getFileHash css) := StyleAsset]>
                   (<[jsonAssetName := json]> (assets w))))
             (files w) (console w)))
  \/ (exists p,
        emit options version env w
        = (Throw (ENOENT p),
           mkWorld l (<[jsonAssetName := json]> (assets w)) (files w) (console w)))
  \/ (exists css,
        emit options version env w
        = (Throw (ENOENT scriptTemplatePath),
           mkWorld (mkLocals (jsFileHash l) (getFileHash css) (injectScriptContent l) css)
             (<[styleAssetName (getFileHash css) := StyleAsset]>
                (<[jsonAssetName := json]> (assets w)))
             (files w) (console w))).
Proof.
  intros json l.
  destruct (truthy (hiddenDefaultNotification options)) eqn:Hh.
  - destruct (files w !! scriptTemplatePath) as [template|] eqn:Htpl.
    + left. exists template. exact (emit_hidden _ _ _ _ _ Hh Htpl).
    + right. right. left. eexists. exact (emit_script_missing_hidden _ _ _ _ Hh Htpl).
  - destruct (files w !! styleTemplatePath) as [css|] eqn:Hcss.
    + destruct (files w !! scriptTemplatePath) as [template|] eqn:Htpl.
      * right. left. exists css, template. exact (emit_shown _ _ _ _ _ _ Hh Hcss Htpl).
      * right. right. right. exists css.
        exact (emit_script_missing_shown _ _ _ _ _ Hh Hcss Htpl).
    + right. right. left. eexists. exact (emit_style_missing _ _ _ _ Hh Hcss).
Qed.

(** X1. A missing stylesheet template makes [emit] throw the file-system
    error for its path after the manifest has been registered: the manifest
    entry stays in the asset table, no script is generated or registered, and
    the shared variables keep their values. *)
Theorem emit_without_style_template (options : Options R) (version : string) (env : Env) (w : World) :
  truthy (hiddenDefaultNotification options) = false ->
  files w !! styleTemplatePath = None ->
  let r := emit options version env w in
  fst r = Throw (ENOENT styleTemplatePath)
  /\ locals (snd r) = locals w
  /\ assets (snd r) !! jsonAssetName
     = Some (ManifestAsset (generateJSONFileContent version (silence options)))
  /\ forall hash,
       assets (snd r) !! styleAssetName hash = assets w !! styleAssetName hash
       /\ assets (snd r) !! scriptAssetName hash = assets w !! scriptAssetName hash.
Proof.
  intros Hh Hcss r. subst r. rewrite (emit_style_missing _ _ _ _ Hh Hcss). simpl.
  split; [reflexivity | ]. split; [reflexivity | ].
  split; [apply lookup_insert_eq | ].
  intros hash. split; apply lookup_insert_ne;
    [apply jsonAssetName_not_style | apply jsonAssetName_not_script].
Qed.

(** X2. A missing script template makes [emit] throw the file-system error
    for its path only after the stylesheet has been handled: with the
    notification shown the stylesheet is already read, hashed, stored in the
    shared variables and registered, while the script hash and the script
    content keep their old values and no script is registered. *)
Theorem emit_without_script_template (options : Options R) (version : string) (env : Env) (w : World)
    (css : string) :
  truthy (hiddenDefaultNotification options) = false ->
  files w !! styleTemplatePath = Some css ->
  files w !! scriptTemplatePath = None ->
  let r := emit options version env w in
  fst r = Throw (ENOENT scriptTemplatePath)
  /\ cssFileHash (locals (snd r)) = getFileHash css
  /\ injectStyleContent (locals (snd r)) = css
  /\ assets (snd r) !! styleAssetName (getFileHash css) = Some StyleAsset
  /\ jsFileHash (locals (snd r)) = jsFileHash (locals w)
  /\ injectScriptContent (locals (snd r)) = injectScriptContent (locals w)
  /\ forall hash, assets (snd r) !! scriptAssetName hash = assets w !! scriptAssetName hash.
Proof.
  intros Hh Hcss Htpl r. subst r.
  rewrite (emit_script_missing_shown _ _ _ _ _ Hh Hcss Htpl). simpl.
  repeat split; try apply lookup_insert_eq.
  intros hash.
  rewrite lookup_insert_ne by apply styleAssetName_not_script.
  apply lookup_insert_ne, jsonAssetName_not_script.
Qed.

(** X3. Whatever happens, [emit] writes no file and logs nothing, and in the
    asset table it touches at most the manifest name and names of the hashed
    stylesheet and script: every other entry of the compilation is left as
    it was. *)
Theorem emit_frame (options : Options R) (version : string) (env : Env) (w : World) :
  let w' := snd (emit options version env w) in
  files w' = files w
  /\ console w' = console w
  /\ forall name,
       name <> jsonAssetName ->
       (forall hash, name <> styleAssetName hash) ->
       (forall hash, name <> scriptAssetName hash) ->
       assets w' !! name = assets w !! name.
Proof.
  intros w'. subst w'.
  destruct (emit_cases options version env w)
    as [[t ->] | [[c [t ->]] | [[p ->] | [c ->]]]]; simpl;
    (split; [reflexivity | split; [reflexivity | ]]);
    intros name Hjson Hstyle Hscript;
    rewrite ?lookup_insert_ne by auto using not_eq_sym; reflexivity.
Qed.

(** X4. The manifest is always registered, under its fixed name and with
    the content generated from the version and the silence flag, even when
    [emit] throws afterwards; the hashed assets registered later never
    replace it. *)
Theorem emit_registers_manifest (options : Options R) (version : string) (env : Env) (w : World) :
  assets (snd (emit options version env w)) !! jsonAssetName
  = Some (ManifestAsset (generateJSONFileContent version (silence options))).
Proof.
  destruct (emit_cases options version env w)
    as [[t ->] | [[c [t ->]] | [[p ->] | [c ->]]]]; simpl;
    repeat (rewrite lookup_insert_ne
              by first [apply not_eq_sym, jsonAssetName_not_script
                       | apply not_eq_sym, jsonAssetName_not_style]);
    apply lookup_insert_eq.
Qed.

(** X5. With the default notification hidden [emit] does not look at the
    stylesheet at all: it completes exactly when the script template is on
    disk, whether or not the stylesheet template exists, it leaves the
    stylesheet hash and content variables alone, and it registers nothing
    under any stylesheet name. *)
Theorem emit_hidden_skips_stylesheet (options : Options R) (version : string) (env : Env) (w : World) :
  truthy (hiddenDefaultNotification options) = true ->
  let r := emit options version env w in
  (fst r = Normal tt <-> is_Some (files w !! scriptTemplatePath))
  /\ cssFileHash (locals (snd r)) = cssFileHash (locals w)
  /\ injectStyleContent (locals (snd r)) = injectStyleContent (locals w)
  /\ forall hash, assets (snd r) !! styleAssetName hash = assets w !! styleAssetName hash.
Proof.
  intros Hh r. subst r.
  destruct (files w !! scriptTemplatePath) as [template|] eqn:Htpl.
  - rewrite (emit_hidden _ _ _ _ _ Hh Htpl). simpl.
    split; [split; eauto | ]. split; [reflexivity | ]. split; [reflexivity | ].
    intros hash. rewrite lookup_insert_ne by (apply not_eq_sym, styleAssetName_not_script).
    apply lookup_insert_ne, jsonAssetName_not_style.
  - rewrite (emit_script_missing_hidden _ _ _ _ Hh Htpl). simpl.
    split; [split; [discriminate | intros [x Hx]; discriminate] | ].
    split; [reflexivity | ]. split; [reflexivity | ].
    intros hash. apply lookup_insert_ne, jsonAssetName_not_style.
Qed.

Ltac solve_emit_twice :=
  cbn [fst snd locals assets files console
       jsFileHash cssFileHash injectScriptContent injectStyleContent];
  split; [reflexivity | ]; split; [reflexivity | ];
  split;
  [ intros name; rewrite !lookup_insert; repeat case_decide; auto
  | intros ->; do 2 f_equal; apply map_eq; intros i;
    rewrite !lookup_insert; repeat case_decide; reflexivity ].

(** X6. Firing [emit] a second time, on the state the first firing left and
    with the disk unchanged, gives what a single firing in the second
    environment gives: the same completion and the same shared variables,
    and every asset name holds either what that single firing registers or
    what the first firing left there.  When the environment of the script
    generator is the same for both firings, the second one changes nothing
    at all. *)
Theorem emit_twice (options : Options R) (version : string) (env env' : Env) (w : World) :
  let w1 := snd (emit options version env w) in
  let r2 := emit options version env' w1 in
  let r := emit options version env' w in
  fst r2 = fst r
  /\ locals (snd r2) = locals (snd r)
  /\ (forall name,
        assets (snd r2) !! name = assets (snd r) !! name
        \/ assets (snd r2) !! name = assets w1 !! name)
  /\ (env' = env -> r2 = emit options version env w).
Proof.
  intros w1 r2 r. subst r r2 w1.
  destruct (truthy (hiddenDefaultNotification options)) eqn:Hh.
  - destruct (files w !! scriptTemplatePath) as [template|] eqn:Htpl.
    + rewrite (emit_hidden _ _ env w _ Hh Htpl), (emit_hidden _ _ env' w _ Hh Htpl).
      cbn [snd]. rewrite (emit_hidden _ _ env' _ template Hh) by exact Htpl.
      solve_emit_twice.
    + rewrite (emit_script_missing_hidden _ _ env w Hh Htpl),
        (emit_script_missing_hidden _ _ env' w Hh Htpl).
      cbn [snd]. rewrite (emit_script_missing_hidden _ _ env' _ Hh) by exact Htpl.
      solve_emit_twice.
  - destruct (files w !! styleTemplatePath) as [css|] eqn:Hcss.
    + destruct (files w !! scriptTemplatePath) as [template|] eqn:Htpl.
      * rewrite (emit_shown _ _ env w _ _ Hh Hcss Htpl),
          (emit_shown _ _ env' w _ _ Hh Hcss Htpl).
        cbn [snd]. rewrite (emit_shown _ _ env' _ css template Hh) by assumption.
        solve_emit_twice.
      * rewrite (emit_script_missing_shown _ _ env w _ Hh Hcss Htpl),
          (emit_script_missing_shown _ _ env' w _ Hh Hcss Htpl).
        cbn [snd]. rewrite (emit_script_missing_shown _ _ env' _ css Hh) by assumption.
        solve_emit_twice.
    + rewrite (emit_style_missing _ _ env w Hh Hcss),
        (emit_style_missing _ _ env' w Hh Hcss).
      cbn [snd]. rewrite (emit_style_missing _ _ env' _ Hh) by exact Hcss.
      solve_emit_twice.
Qed.

(** X7. [afterEmit] never throws, never changes the asset table or the
    shared variables, and writes to no file other than the entry HTML. *)
Theorem afterEmit_frame (options : Options R) (version : string) (compiler : Compiler)
    (w : World) :
  let r := afterEmit options version compiler w in
  fst r = Normal tt
  /\ assets (snd r) = assets w
  /\ locals (snd r) = locals w
  /\ forall p, p <> htmlFilePath options compiler -> files (snd r) !! p = files w !! p.
Proof.
  intros r. subst r.
  destruct (files w !! htmlFilePath options compiler) as [html|] eqn:Hentry.
  - rewrite (afterEmit_present _ _ _ _ _ Hentry). simpl.
    repeat split. intros p Hp. now apply lookup_insert_ne, not_eq_sym.
  - rewrite (afterEmit_missing _ _ _ _ Hentry). simpl. repeat split.
Qed.

End HookFacts.

(** * More about [apply] and the whole build *)

Section ApplyFacts.

Context {R : Type} `{core : Core R} `{path : Path}.

Lemma bind_normal {A B : Type} (m : M A) (k : A -> M B) (w w' : World) (a : A) :
  m w = (Normal a, w') -> bind m k w = k a w'.
Proof. intros H. unfold bind. now rewrite H. Qed.

Lemma bind_throw {A B : Type} (m : M A) (k : A -> M B) (w w' : World) (e : Error) :
  m w = (Throw e, w') -> bind m k w = (Throw e, w').
Proof. intros H. unfold bind. now rewrite H. Qed.

Lemma apply_keeps_fields (options options' : Options R) (compiler : Compiler) (env : Env)
    (version : string) :
  apply options compiler env = Normal (options', version) ->
  versionType options' = versionType options
  /\ customVersion options' = customVersion options
  /\ hiddenDefaultNotification options' = hiddenDefaultNotification options
  /\ customNotificationHTML options' = customNotificationHTML options
  /\ silence options' = silence options
  /\ microApp options' = microApp options
  /\ indexHtmlFilePath options' = indexHtmlFilePath options
  /\ otherOptions options' = otherOptions options.
Proof.
  unfold apply.
  destruct (injectFileBase options);
    match goal with |- context [match ?v with Normal _ => _ | Throw _ => _ end] =>
      destruct v end; intros [= <- <-]; repeat split.
Qed.

Lemma apply_base (options options' : Options R) (compiler : Compiler) (env : Env)
    (version : string) :
  apply options compiler env = Normal (options', version) ->
  injectFileBase options'
  = Some (default (default "/" (publicPath compiler)) (injectFileBase options)).
Proof.
  unfold apply.
  destruct (injectFileBase options) as [base|] eqn:Hbase;
    match goal with |- context [match ?v with Normal _ => _ | Throw _ => _ end] =>
      destruct v end; intros [= <- <-]; simpl; [exact Hbase | reflexivity].
Qed.

(** X8. When [apply] returns, the options object has a base path: the
    configured one, else the compiler's public path when that is a string,
    else a slash; every other option is as it was.  The filled-in base path
    stays: applying the same plugin object again, to any compiler, changes
    nothing and resolves the same version, whatever that compiler's public
    path is. *)
Theorem apply_fixes_base_path (options options' : Options R) (compiler : Compiler)
    (env : Env) (version : string) :
  apply options compiler env = Normal (options', version) ->
  injectFileBase options'
  = Some (default (default "/" (publicPath compiler)) (injectFileBase options))
  /\ options'
     = mkOptions (versionType options) (customVersion options)
         (hiddenDefaultNotification options) (customNotificationHTML options)
         (injectFileBase options') (silence options) (microApp options)
         (indexHtmlFilePath options) (otherOptions options)
  /\ forall compiler2, apply options' compiler2 env = Normal (options', version).
Proof.
  intros Happly.
  split; [exact (apply_base _ _ _ _ _ Happly) | ].
  split.
  - destruct (apply_keeps_fields _ _ _ _ _ Happly)
      as (H1 & H2 & H3 & H4 & H5 & H6 & H7 & H8).
    destruct options'. simpl in *. now subst.
  - intros compiler2.
    pose proof (apply_base _ _ _ _ _ Happly) as Hbase.
    pose proof (apply_again _ _ _ _ _ Happly) as Hagain.
    unfold apply in *. rewrite Hbase in *. exact Hagain.
Qed.

(** X10. When a template that [emit] needs is missing, the build throws the
    file-system error and [afterEmit] never runs: the entry HTML and every
    other file stay as they were, and the plugin logs nothing. *)
Theorem build_stops_when_template_missing (options options' : Options R)
    (compiler : Compiler) (env env' : Env) (version : string) (w : World) :
  apply options compiler env = Normal (options', version) ->
  files w !! scriptTemplatePath = None
  \/ (truthy (hiddenDefaultNotification options) = false
      /\ files w !! styleTemplatePath = None) ->
  let r := build options compiler env env' w in
  (exists p, fst r = Throw (ENOENT p)
             /\ (p = scriptTemplatePath \/ p = styleTemplatePath)
             /\ files w !! p = None)
  /\ files (snd r) = files w
  /\ console (snd r) = console w.
Proof.
  intros Happly Hmissing r. subst r. unfold build.
  rewrite (bind_normal (set_locals (mkLocals "" "" "" "")) _ w _ tt eq_refl), Happly.
  destruct (apply_keeps_fields _ _ _ _ _ Happly) as (_ & _ & Hhid & _).
  set (w0 := mkWorld (mkLocals "" "" "" "") (assets w) (files w) (console w)).
  assert (Hthrow : exists p w1,
            emit options' version env' w0 = (Throw (ENOENT p), w1)
            /\ (p = scriptTemplatePath \/ p = styleTemplatePath)
            /\ files w !! p = None /\ files w1 = files w /\ console w1 = console w).
  { destruct (truthy (hiddenDefaultNotification options')) eqn:Hh.
    - destruct Hmissing as [Htpl | [Hshown _]]; [ | rewrite <- Hhid in Hshown; congruence].
      eexists _, _. split; [exact (emit_script_missing_hidden _ _ _ w0 Hh Htpl) | ].
      repeat split; auto.
    - destruct (files w !! styleTemplatePath) as [css|] eqn:Hcss.
      + destruct Hmissing as [Htpl | [_ Hnone]]; [ | discriminate].
        eexists _, _.
        split; [exact (emit_script_missing_shown _ _ _ w0 _ Hh Hcss Htpl) | ].
        repeat split; auto.
      + eexists _, _. split; [exact (emit_style_missing _ _ _ w0 Hh Hcss) | ].
        repeat split; auto. }
  destruct Hthrow as (p & w1 & Hemit & Hp & Hnone & Hfiles & Hconsole).
  rewrite (bind_throw _ _ _ _ _ Hemit). simpl.
  split; [exists p; auto | auto].
Qed.

(** X11. A complete build in linked mode with the notification shown: the
    build returns the options and the version, logs nothing, and the entry
    HTML is rewritten by [injectPluginHtml] with the hashes of the very
    contents registered in the asset table.  The script reference it builds
    is the base path followed by the registered script name, and, unless a
    custom markup is set, the stylesheet link is the base path followed by
    the registered stylesheet name. *)
Theorem build_links_registered_assets (options options' : Options R) (compiler : Compiler)
    (env env' : Env) (version : string) (w : World) (css template page : string) :
  apply options compiler env = Normal (options', version) ->
  truthy (hiddenDefaultNotification options) = false ->
  truthy (microApp options) = false ->
  files w !! styleTemplatePath = Some css ->
  files w !! scriptTemplatePath = Some template ->
  files w !! htmlFilePath options compiler = Some page ->
  let r := build options compiler env env' w in
  let js := generateJsFileContent env' template version options' in
  let base := default (default "/" (publicPath compiler)) (injectFileBase options) in
  fst r = Normal (options', version)
  /\ console (snd r) = console w
  /\ assets (snd r) !! styleAssetName (getFileHash css) = Some StyleAsset
  /\ source (locals (snd r)) StyleAsset = css
  /\ assets (snd r) !! scriptAssetName (getFileHash js) = Some ScriptAsset
  /\ source (locals (snd r)) ScriptAsset = js
  /\ files (snd r) !! htmlFilePath options compiler
     = Some (injectPluginHtml page version options' (getFileHash css) (getFileHash js))
  /\ scriptSrcHtml options' (getFileHash js)
     = "<script src=" ++ JS.dquote ++ base ++ scriptAssetName (getFileHash js)
       ++ JS.dquote ++ "></script>"
  /\ (truthy_string (customNotificationHTML options) = false ->
      cssLinkHtml options' (getFileHash css)
      = "<link rel=" ++ JS.dquote ++ "stylesheet" ++ JS.dquote ++ " href=" ++ JS.dquote
        ++ base ++ styleAssetName (getFileHash css) ++ JS.dquote ++ ">").
Proof.
  intros Happly Hshown Hlinked Hcss Htpl Hentry r js base. subst r.
  destruct (apply_keeps_fields _ _ _ _ _ Happly) as (_ & _ & Hhid & Hcustom & _ & Hmicro & _).
  pose proof (apply_base _ _ _ _ _ Happly) as Hbase. fold base in Hbase.
  pose proof (apply_keeps_entry_path _ _ _ _ _ Happly) as Hpath.
  rewrite <- Hhid in Hshown. rewrite <- Hmicro in Hlinked. rewrite <- Hpath in *.
  unfold build.
  rewrite (bind_normal (set_locals (mkLocals "" "" "" "")) _ w _ tt eq_refl), Happly.
  set (w0 := mkWorld (mkLocals "" "" "" "") (assets w) (files w) (console w)).
  rewrite (bind_normal _ _ _ _ _ (emit_shown options' version env' w0 css template
                                     Hshown Hcss Htpl)).
  fold js.
  match goal with |- context [bind _ _ ?w1] => set (w1' := w1) end.
  assert (Hentry1 : files w1' !! htmlFilePath options' compiler = Some page) by exact Hentry.
  rewrite (bind_normal _ _ _ _ _ (afterEmit_present options' version compiler w1' page
                                     Hentry1)).
  unfold ret. cbn [fst snd]. subst w1'. cbn [locals assets files console source
    injectStyleContent injectScriptContent cssFileHash jsFileHash].
  split; [reflexivity | ]. split; [reflexivity | ].
  split; [rewrite lookup_insert_ne by (apply not_eq_sym, styleAssetName_not_script);
          apply lookup_insert_eq | ].
  split; [reflexivity | ]. split; [apply lookup_insert_eq | ]. split; [reflexivity | ].
  split; [rewrite lookup_insert_eq; unfold inject; now rewrite Hlinked | ].
  split.
  - unfold scriptSrcHtml, scriptAssetName. rewrite Hbase. simpl default.
    now rewrite !append_assoc.
  - intros Hnocustom. unfold cssLinkHtml, styleAssetName.
    rewrite Hcustom, Hnocustom, Hshown, Hbase. simpl default. cbn [orb].
    now rewrite !append_assoc.
Qed.

(** X16. A complete build in micro-app mode with the notification shown:
    the entry HTML is rewritten by [injectPluginHTMLInline] with the very
    contents that the stylesheet and script assets registered in the same
    build return, and the hashed assets are registered all the same. *)
Theorem build_inlines_registered_contents (options options' : Options R)
    (compiler : Compiler) (env env' : Env) (version : string) (w : World)
    (css template page : string) :
  apply options compiler env = Normal (options', version) ->
  truthy (hiddenDefaultNotification options) = false ->
  truthy (microApp options) = true ->
  files w !! styleTemplatePath = Some css ->
  files w !! scriptTemplatePath = Some template ->
  files w !! htmlFilePath options compiler = Some page ->
  let r := build options compiler env env' w in
  let js := generateJsFileContent env' template version options' in
  fst r = Normal (options', version)
  /\ console (snd r) = console w
  /\ assets (snd r) !! styleAssetName (getFileHash css) = Some StyleAsset
  /\ assets (snd r) !! scriptAssetName (getFileHash js) = Some ScriptAsset
  /\ files (snd r) !! htmlFilePath options compiler
     = Some (injectPluginHTMLInline page version options'
               (source (locals (snd r)) StyleAsset) (source (locals (snd r)) ScriptAsset))
  /\ source (locals (snd r)) StyleAsset = css
  /\ source (locals (snd r)) ScriptAsset = js.
Proof.
  intros Happly Hshown Hinline Hcss Htpl Hentry r js. subst r.
  destruct (apply_keeps_fields _ _ _ _ _ Happly) as (_ & _ & Hhid & _ & _ & Hmicro & _).
  pose proof (apply_keeps_entry_path _ _ _ _ _ Happly) as Hpath.
  rewrite <- Hhid in Hshown. rewrite <- Hmicro in Hinline. rewrite <- Hpath in *.
  unfold build.
  rewrite (bind_normal (set_locals (mkLocals "" "" "" "")) _ w _ tt eq_refl), Happly.
  set (w0 := mkWorld (mkLocals "" "" "" "") (assets w) (files w) (console w)).
  rewrite (bind_normal _ _ _ _ _ (emit_shown options' version env' w0 css template
                                     Hshown Hcss Htpl)).
  fold js.
  match goal with |- context [bind _ _ ?w1] => set (w1' := w1) end.
  assert (Hentry1 : files w1' !! htmlFilePath options' compiler = Some page) by exact Hentry.
  rewrite (bind_normal _ _ _ _ _ (afterEmit_present options' version compiler w1' page
                                     Hentry1)).
  unfold ret. cbn [fst snd]. subst w1'. cbn [locals assets files console source
    injectStyleContent injectScriptContent cssFileHash jsFileHash].
  split; [reflexivity | ]. split; [reflexivity | ].
  split; [rewrite lookup_insert_ne by (apply not_eq_sym, styleAssetName_not_script);
          apply lookup_insert_eq | ].
  split; [apply lookup_insert_eq | ].
  split; [rewrite lookup_insert_eq; unfold inject; now rewrite Hinline | ].
  split; reflexivity.
Qed.

End ApplyFacts.

(** * More about the injectors and the asset names *)

Section InjectorFacts.

Context {R : Type} `{core : Core R}.

Lemma includes_intro (s u p v : string) : s = u ++ p ++ v -> JS.includes s p = true.
Proof.
  intros Heq. unfold JS.includes.
  destruct (JS.split_first p s) as [[x y]|] eqn:E; [reflexivity | ].
  exfalso. exact (split_first_None _ _ E _ _ Heq).
Qed.

Lemma includes_split (s p : string) :
  JS.includes s p = true -> exists u v, JS.split_first p s = Some (u, v).
Proof.
  unfold JS.includes. destruct (JS.split_first p s) as [[u v]|]; [eauto | discriminate].
Qed.

(** The head insertion adds at least a line break and the indentation. *)
Lemma replace_head_grows (html template a b : string) :
  JS.split_first "<head>" html = Some (a, b) ->
  (forall m p f, exists J,
     JS.GetSubstitution m p f template = ("<head>" ++ JS.newline ++ "    ") ++ J) ->
  exists c,
    JS.replace html "<head>" template = a ++ "<head>" ++ c
    /\ String.length html + 5 <= String.length (JS.replace html "<head>" template).
Proof.
  intros Hhead Hexp. unfold JS.replace. rewrite Hhead.
  destruct (Hexp "<head>" a b) as [J ->].
  rewrite (split_first_Some _ _ _ _ Hhead).
  exists (JS.newline ++ "    " ++ J ++ b). split.
  - now rewrite !append_assoc.
  - rewrite !length_append. simpl. lia.
Qed.

Lemma headReplacement_indent (m p f version : string) (options : Options R)
    (cssFileHash jsFileHash : string) :
  exists J,
    JS.GetSubstitution m p f (headReplacement version options cssFileHash jsFileHash)
    = ("<head>" ++ JS.newline ++ "    ") ++ J.
Proof.
  change (headReplacement version options cssFileHash jsFileHash)
    with (("<head>" ++ JS.newline ++ "    ")
          ++ cssLinkHtml options cssFileHash
          ++ JS.newline ++ "    " ++ scriptSrcHtml options jsFileHash
          ++ JS.newline ++ "    " ++ versionScript version).
  rewrite GetSubstitution_plain_prefix by reflexivity. eauto.
Qed.

Lemma headReplacementInline_indent (m p f version : string) (options : Options R)
    (style script : string) :
  exists J,
    JS.GetSubstitution m p f (headReplacementInline version options style script)
    = ("<head>" ++ JS.newline ++ "    ") ++ J.
Proof.
  change (headReplacementInline version options style script)
    with (("<head>" ++ JS.newline ++ "    ")
          ++ "    " ++ pluginStyle options style
          ++ JS.newline ++ "        " ++ pluginScript script
          ++ JS.newline ++ "        " ++ versionScript version).
  rewrite GetSubstitution_plain_prefix by reflexivity. eauto.
Qed.

(** The anchor insertion never shortens the text and keeps a head tag. *)
Lemma replace_anchor_grows (res a c : string) :
  res = a ++ "<head>" ++ c ->
  String.length res <= String.length (JS.replace res "</body>" anchorReplacement)
  /\ JS.includes (JS.replace res "</body>" anchorReplacement) "<head>" = true.
Proof.
  intros Hres. unfold JS.replace.
  destruct (JS.split_first "</body>" res) as [[u v]|] eqn:Hbody.
  2:{ split; [lia | now apply (includes_intro _ a _ c)]. }
  destruct (anchorReplacement_expands "</body>" u v) as [A ->].
  pose proof (split_first_Some _ _ _ _ Hbody) as Hcut.
  split.
  - rewrite Hcut at 1. rewrite !length_append. lia.
  - rewrite Hres in Hcut.
    destruct (append_eq_append _ _ _ _ Hcut) as [k0 [[Ha Hk] | [Hu Hk]]].
    + destruct (body_before_head _ _ _ Hk) as [k [-> Hv]].
      apply (includes_intro _ (u ++ A ++ "</body>" ++ k) _ c).
      rewrite Hv. now rewrite !append_assoc.
    + destruct (body_behind_head _ _ _ Hk) as [k [-> Hc]].
      apply (includes_intro _ a _ (k ++ A ++ "</body>" ++ v)).
      rewrite Hu. now rewrite !append_assoc.
Qed.

Lemma inject_grows (options : Options R) (version : string) (l : Locals) (html : string) :
  JS.includes html "<head>" = true ->
  String.length html + 5 <= String.length (inject options version l html)
  /\ JS.includes (inject options version l html) "<head>" = true.
Proof.
  intros Hinc. destruct (includes_split _ _ Hinc) as (a & b & Hhead).
  assert (Hstep : forall template,
            (forall m p f, exists J,
               JS.GetSubstitution m p f template = ("<head>" ++ JS.newline ++ "    ") ++ J) ->
            let res := JS.replace html "<head>" template in
            let out := if negb (truthy (hiddenDefaultNotification options))
                       then JS.replace res "</body>" anchorReplacement else res in
            String.length html + 5 <= String.length out
            /\ JS.includes out "<head>" = true).
  { intros template Hexp res out. subst out res.
    destruct (replace_head_grows html template a b Hhead Hexp) as (c & Hres & Hlen).
    destruct (negb (truthy (hiddenDefaultNotification options))).
    - destruct (replace_anchor_grows _ a c Hres) as [Hle Hin]. split; [lia | exact Hin].
    - split; [exact Hlen | now apply (includes_intro _ a _ c)]. }
  unfold inject. destruct (truthy (microApp options)).
  - apply (Hstep (headReplacementInline version options _ _)).
    intros m p f. apply headReplacementInline_indent.
  - apply (Hstep (headReplacement version options _ _)).
    intros m p f. apply headReplacement_indent.
Qed.

(** X12. Injection is not idempotent.  On a page with an opening head tag
    the result is longer than the page and still contains a head tag, so
    injecting into an already injected page, as a second build over the same
    output directory does, inserts everything once more. *)
Theorem injection_is_not_idempotent (options : Options R) (version : string) (l : Locals)
    (html : string) :
  JS.includes html "<head>" = true ->
  let out := inject options version l html in
  String.length html + 5 <= String.length out
  /\ JS.includes out "<head>" = true
  /\ inject options version l out <> out.
Proof.
  intros Hinc out.
  destruct (inject_grows options version l html Hinc) as [Hlen Hout].
  split; [exact Hlen | split; [exact Hout | ]].
  intros Heq.
  destruct (inject_grows options version l out Hout) as [Hlen2 _].
  rewrite Heq in Hlen2. lia.
Qed.

(** X13. On a page without an opening head tag the two modes return the
    same text, and that text depends neither on the version nor on the
    hashes or the generated contents: no asset reference, no inline body and
    no version script is inserted. *)
Theorem modes_agree_without_head (options : Options R) (html : string)
    (version version' cssFileHash jsFileHash style script : string) :
  JS.includes html "<head>" = false ->
  injectPluginHtml html version options cssFileHash jsFileHash
  = injectPluginHTMLInline html version' options style script.
Proof.
  intros Hinc. apply includes_false in Hinc.
  unfold injectPluginHtml, injectPluginHTMLInline.
  now rewrite !(replace_absent _ _ _ Hinc).
Qed.

End InjectorFacts.

Section AssetNames.

Context {R : Type} `{core : Core R} `{path : Path}.

(** X15. Asset names never collide: the stylesheet name and the script name
    determine the hash they carry, and the manifest, a stylesheet and a
    script never share a name, whatever the directory and file-name
    constants and the hashes are. *)
Theorem asset_names_distinct (h h' : string) :
  (styleAssetName h = styleAssetName h' -> h = h')
  /\ (scriptAssetName h = scriptAssetName h' -> h = h')
  /\ styleAssetName h <> scriptAssetName h'
  /\ jsonAssetName <> styleAssetName h
  /\ jsonAssetName <> scriptAssetName h.
Proof.
  split; [ | split; [ | split; [ | split]]].
  - unfold styleAssetName. intros H.
    do 4 apply append_inv_head in H. now apply append_inv_tail in H.
  - unfold scriptAssetName. intros H.
    do 4 apply append_inv_head in H. now apply append_inv_tail in H.
  - apply styleAssetName_not_script.
  - apply jsonAssetName_not_style.
  - apply jsonAssetName_not_script.
Qed.

End AssetNames.

(** * What the head insertion writes, for arbitrary contents *)

Section ExpansionFacts.

Context {R : Type} `{core : Core R}.

(** Expansion passes over a literal piece that is free of dollar signs and
    does not start with a pattern character. *)
Lemma GetSubstitution_literal (m p f x : string) (d : ascii) (y t : string) :
  JS.is_pattern_char d = false ->
  JS.no_dollar (String d y) = true ->
  JS.GetSubstitution m p f (x ++ String d y ++ t)
  = JS.GetSubstitution m p f x ++ String d y ++ JS.GetSubstitution m p f t.
Proof.
  intros Hd Hy.
  change ((String d y ++ t)%string) with (String d (y ++ t)).
  rewrite GetSubstitution_app by exact Hd.
  change (String d (y ++ t)) with ((String d y ++ t)%string).
  now rewrite (GetSubstitution_plain_prefix m p f (String d y)) by exact Hy.
Qed.

Ltac expand_piece :=
  match goal with
  | |- context [JS.GetSubstitution ?m ?p ?f (?x ++ ?t)] =>
      rewrite (GetSubstitution_plain_prefix m p f x t) by reflexivity
  | |- context [JS.GetSubstitution ?m ?p ?f (?x ++ String ?d ?y ++ ?t)] =>
      rewrite (GetSubstitution_literal m p f x d y t) by reflexivity
  end.

Ltac expand_pieces := repeat expand_piece.

(** What [replace] makes of the head replacement of inline mode. *)
Lemma headReplacementInline_expansion (m p f version : string) (options : Options R)
    (style script : string) :
  let E := JS.GetSubstitution m p f in
  E (headReplacementInline version options style script)
  = "<head>" ++ JS.newline ++ "        "
    ++ (if truthy_string (customNotificationHTML options)
           || truthy (hiddenDefaultNotification options)
        then "" else "<style>" ++ E style ++ "</style>")
    ++ JS.newline ++ "        "
    ++ ("<script>" ++ E script ++ "</script>")
    ++ JS.newline ++ "        "
    ++ "<script>window.pluginWebUpdateNotice_version = '"
    ++ E (version ++ "';</script>").
Proof.
  intros E. subst E.
  unfold headReplacementInline, pluginStyle, pluginScript, versionScript.
  destruct (truthy_string (customNotificationHTML options)
            || truthy (hiddenDefaultNotification options));
    rewrite !append_assoc; expand_pieces; reflexivity.
Qed.

(** What [replace] makes of the head replacement of linked mode. *)
Lemma headReplacement_expansion (m p f version : string) (options : Options R)
    (cssFileHash jsFileHash : string) :
  let E := JS.GetSubstitution m p f in
  let base := default "/" (injectFileBase options) in
  E (headReplacement version options cssFileHash jsFileHash)
  = "<head>" ++ JS.newline ++ "    "
    ++ (if truthy_string (customNotificationHTML options)
           || truthy (hiddenDefaultNotification options)
        then ""
        else "<link rel=" ++ JS.dquote ++ "stylesheet" ++ JS.dquote ++ " href=" ++ JS.dquote
             ++ E (base ++ DIRECTORY_NAME) ++ "/" ++ E INJECT_STYLE_FILE_NAME ++ "."
             ++ E cssFileHash ++ ".css" ++ JS.dquote ++ ">")
    ++ JS.newline ++ "    "
    ++ ("<script src=" ++ JS.dquote
        ++ E (base ++ DIRECTORY_NAME) ++ "/" ++ E INJECT_SCRIPT_FILE_NAME ++ "."
        ++ E jsFileHash ++ ".js" ++ JS.dquote ++ "></script>")
    ++ JS.newline ++ "    "
    ++ "<script>window.pluginWebUpdateNotice_version = '"
    ++ E (version ++ "';</script>").
Proof.
  intros E base. subst E.
  unfold headReplacement, cssLinkHtml, scriptSrcHtml, versionScript. fold base.
  destruct (truthy_string (customNotificationHTML options)
            || truthy (hiddenDefaultNotification options));
    rewrite !append_assoc;
    rewrite <- !(append_assoc base DIRECTORY_NAME);
    expand_pieces;
    rewrite ?(GetSubstitution_plain m p f JS.dquote) by reflexivity;
    reflexivity.
Qed.

(** X17. Inline mode on a page with an opening head tag, for arbitrary
    contents: behind the first head tag it writes the style element (left
    out when the notification is hidden or a custom markup is set), the
    script element and the version script, where the stylesheet content, the
    script content and the version have gone through the pattern expansion
    of [replace]: [$$] becomes a dollar sign, [$&] the head tag, [$`] the
    text in front of the head tag and [$'] the text behind it, and a text
    without dollar signs is written as it is. *)
Theorem inline_insertion_for_any_contents (options : Options R)
    (html a b version style script : string) :
  JS.split_first "<head>" html = Some (a, b) ->
  let E := JS.GetSubstitution "<head>" a b in
  let res :=
    a ++ "<head>" ++ JS.newline ++ "        "
    ++ (if truthy_string (customNotificationHTML options)
           || truthy (hiddenDefaultNotification options)
        then "" else "<style>" ++ E style ++ "</style>")
    ++ JS.newline ++ "        "
    ++ ("<script>" ++ E script ++ "</script>")
    ++ JS.newline ++ "        "
    ++ "<script>window.pluginWebUpdateNotice_version = '"
    ++ E (version ++ "';</script>") ++ b in
  injectPluginHTMLInline html version options style script
  = (if truthy (hiddenDefaultNotification options) then res
     else JS.replace res "</body>" anchorReplacement)
  /\ (forall s, JS.no_dollar s = true -> E s = s)
  /\ E "$$" = "$" /\ E "$&" = "<head>" /\ E "$`" = a /\ E "$'" = b.
Proof.
  intros Hhead E res. split.
  - unfold injectPluginHTMLInline, JS.replace at 2 3. rewrite Hhead.
    rewrite headReplacementInline_expansion. fold E.
    assert (Hres : (a ++ ("<head>" ++ JS.newline ++ "        "
                    ++ (if truthy_string (customNotificationHTML options)
                           || truthy (hiddenDefaultNotification options)
                        then "" else "<style>" ++ E style ++ "</style>")
                    ++ JS.newline ++ "        "
                    ++ ("<script>" ++ E script ++ "</script>")
                    ++ JS.newline ++ "        "
                    ++ "<script>window.pluginWebUpdateNotice_version = '"
                    ++ E (version ++ "';</script>")) ++ b)%string = res).
    { subst res. now rewrite !append_assoc. }
    rewrite Hres. now destruct (truthy (hiddenDefaultNotification options)).
  - split; [intros s Hs; now apply GetSubstitution_plain | ].
    subst E. simpl. rewrite !append_nil_r. auto.
Qed.

(** X18. Linked mode on a page with an opening head tag, for arbitrary
    options and hashes: behind the first head tag it writes the stylesheet
    link (left out when the notification is hidden or a custom markup is
    set), the script reference and the version script, where the base path
    with the directory name, the file names, the hashes and the version have
    gone through the pattern expansion of [replace]. *)
Theorem linked_insertion_for_any_options (options : Options R)
    (html a b version cssFileHash jsFileHash : string) :
  JS.split_first "<head>" html = Some (a, b) ->
  let E := JS.GetSubstitution "<head>" a b in
  let base := default "/" (injectFileBase options) in
  let res :=
    a ++ "<head>" ++ JS.newline ++ "    "
    ++ (if truthy_string (customNotificationHTML options)
           || truthy (hiddenDefaultNotification options)
        then ""
        else "<link rel=" ++ JS.dquote ++ "stylesheet" ++ JS.dquote ++ " href=" ++ JS.dquote
             ++ E (base ++ DIRECTORY_NAME) ++ "/" ++ E INJECT_STYLE_FILE_NAME ++ "."
             ++ E cssFileHash ++ ".css" ++ JS.dquote ++ ">")
    ++ JS.newline ++ "    "
    ++ ("<script src=" ++ JS.dquote
        ++ E (base ++ DIRECTORY_NAME) ++ "/" ++ E INJECT_SCRIPT_FILE_NAME ++ "."
        ++ E jsFileHash ++ ".js" ++ JS.dquote ++ "></script>")
    ++ JS.newline ++ "    "
    ++ "<script>window.pluginWebUpdateNotice_version = '"
    ++ E (version ++ "';</script>") ++ b in
  injectPluginHtml html version options cssFileHash jsFileHash
  = if truthy (hiddenDefaultNotification options) then res
    else JS.replace res "</body>" anchorReplacement.
Proof.
  intros Hhead E base res.
  unfold injectPluginHtml, JS.replace at 2 3. rewrite Hhead.
  rewrite headReplacement_expansion. fold E. fold base.
  match goal with |- context [(a ++ ?mid ++ b)%string] =>
    assert (Hres : (a ++ mid ++ b)%string = res)
      by (subst res; now rewrite !append_assoc);
    rewrite Hres
  end.
  now destruct (truthy (hiddenDefaultNotification options)).
Qed.

End ExpansionFacts.

(** * Runs on the concrete core package *)

Section Runs.

#[local] Existing Instance Sample.core.
#[local] Existing Instance Sample.path.

(** Scenario A of the specification: custom version 1.2.3, notification
    shown, linked mode. *)
Example scenario_A :
  let options := Sample.options (Some false) None None "1.2.3" in
  let r := build options Sample.compiler Sample.env Sample.env (Sample.world (Some Sample.html)) in
  let page := default "" (files (snd r) !! "/dist/index.html") in
  JS.includes page "<link rel=" = true
  /\ JS.includes page "<script src=" = true
  /\ JS.includes page "window.pluginWebUpdateNotice_version = '1.2.3';" = true
  /\ JS.includes page (anchorElement ++ "</body>") = true.
Proof. vm_compute. repeat split. Qed.

(** Scenario B: with the notification hidden, neither link nor anchor. *)
Example scenario_B :
  let options := Sample.options (Some true) None None "1.2.3" in
  let r := build options Sample.compiler Sample.env Sample.env (Sample.world (Some Sample.html)) in
  let page := default "" (files (snd r) !! "/dist/index.html") in
  JS.includes page "<link rel=" = false
  /\ JS.includes page anchorElement = false
  /\ JS.includes page "<script src=" = true
  /\ JS.includes page "window.pluginWebUpdateNotice_version = '1.2.3';" = true.
Proof. vm_compute. repeat split. Qed.

(** Scenario C: inline mode embeds the registered contents. *)
Example scenario_C :
  let options := Sample.options (Some false) None (Some true) "1.2.3" in
  let r := build options Sample.compiler Sample.env Sample.env (Sample.world (Some Sample.html)) in
  let page := default "" (files (snd r) !! "/dist/index.html") in
  JS.includes page ("<style>" ++ source (locals (snd r)) StyleAsset ++ "</style>") = true
  /\ JS.includes page ("<script>" ++ source (locals (snd r)) ScriptAsset ++ "</script>") = true
  /\ JS.includes page "<link rel=" = false
  /\ JS.includes page "<script src=" = false.
Proof. vm_compute. repeat split. Qed.

(** The emit phase on the sample disk registers both hashed assets. *)
Lemma emit_hash_suffix_witness :
  let options := Sample.options (Some false) None None "1.2.3" in
  let w' := snd (emit options "1.2.3" Sample.env (Sample.world None)) in
  fst (emit options "1.2.3" Sample.env (Sample.world None)) = Normal tt
  /\ source (locals w') StyleAsset = ".anchor{color:red}"
  /\ assets w' !! ("pluginWebUpdateNotice/webUpdateNoticeInjectStyle."
                   ++ getFileHash ".anchor{color:red}" ++ ".css") = Some StyleAsset
  /\ assets w' !! ("pluginWebUpdateNotice/webUpdateNoticeInjectScript."
                   ++ getFileHash (source (locals w') ScriptAsset) ++ ".js")
     = Some ScriptAsset.
Proof.
  intros options w'.
  assert (H : fst (emit options "1.2.3" Sample.env (Sample.world None)) = Normal tt)
    by (vm_compute; reflexivity).
  destruct (emit_hash_suffix_matches_content options "1.2.3" Sample.env (Sample.world None) H)
    as [Hstyle [Hscript _]].
  split; [exact H | ]. split; [reflexivity | ].
  split; [exact (Hstyle eq_refl) | exact Hscript].
Defined.

(** A build without the entry file ends normally with the two log entries. *)
Lemma afterEmit_missing_entry_witness :
  let options := Sample.options (Some false) None None "1.2.3" in
  files (Sample.world None) !! htmlFilePath options Sample.compiler = None
  /\ fst (afterEmit options "1.2.3" Sample.compiler (Sample.world None)) = Normal tt.
Proof.
  intros options.
  assert (H : files (Sample.world None) !! htmlFilePath options Sample.compiler = None)
    by (vm_compute; reflexivity).
  split; [exact H | ].
  exact (proj1 (afterEmit_missing_entry_is_logged options "1.2.3" Sample.compiler
                  (Sample.world None) H)).
Defined.



(** A custom notification markup: the stylesheet is registered, the link
    is not written. *)
Lemma custom_markup_witness :
  let options := Sample.options None (Some "<div>reload</div>") None "1.2.3" in
  let r := emit options "1.2.3" Sample.env (Sample.world None) in
  assets (snd r) !! styleAssetName (getFileHash ".anchor{color:red}") = Some StyleAsset
  /\ cssLinkHtml options (cssFileHash (locals (snd r))) = "".
Proof.
  intros options r.
  assert (Hcss : files (Sample.world None) !! styleTemplatePath = Some ".anchor{color:red}")
    by (vm_compute; reflexivity).
  assert (Htpl : files (Sample.world None) !! scriptTemplatePath = Some "poll();")
    by (vm_compute; reflexivity).
  destruct (custom_markup_style_emitted_but_unlinked options "1.2.3" Sample.env (Sample.world None)
              ".anchor{color:red}" "poll();" eq_refl eq_refl Hcss Htpl)
    as [_ [Hasset [_ [_ [Hlink _]]]]].
  split; [exact Hasset | exact Hlink].
Defined.

(** The anchor lands in front of the closing body tag of the sample page. *)
Lemma anchor_inserted_witness :
  let options := Sample.options (Some false) None None "1.2.3" in
  let l := mkLocals "13791" "24211" "" "" in
  JS.no_dollar NOTIFICATION_ANCHOR_CLASS_NAME = true
  /\ match JS.split_first "</body>"
             (JS.replace Sample.html "<head>" (headReplacement "1.2.3" options "24211" "13791"))
     with
     | Some (before, after) =>
         inject options "1.2.3" l Sample.html = before ++ anchorElement ++ "</body>" ++ after
     | None => False
     end.
Proof.
  intros options l.
  assert (H : JS.no_dollar NOTIFICATION_ANCHOR_CLASS_NAME = true) by reflexivity.
  split; [exact H | ].
  pose proof (anchor_inserted_before_first_body options "1.2.3" l Sample.html H) as Hanchor.
  vm_compute in Hanchor. vm_compute. exact (proj2 (proj2 Hanchor)).
Defined.

(** Inline mode on the sample page, with the sample contents. *)
Lemma injection_modes_witness :
  let options := Sample.options (Some false) None (Some true) "1.2.3" in
  let l := mkLocals "13791" "24211" "var v = '1.2.3';poll();" ".anchor{color:red}" in
  JS.split_first "<head>" Sample.html = Some ("<html>", "</head><body></body></html>")
  /\ JS.no_dollar "1.2.3" = true
  /\ inject options "1.2.3" l Sample.html
     = JS.replace
         ("<html>" ++ "<head>"
          ++ JS.newline ++ "        "
          ++ ("<style>" ++ ".anchor{color:red}" ++ "</style>")
          ++ JS.newline ++ "        "
          ++ ("<script>" ++ "var v = '1.2.3';poll();" ++ "</script>")
          ++ JS.newline ++ "        "
          ++ versionScript "1.2.3" ++ "</head><body></body></html>")
         "</body>" anchorReplacement.
Proof.
  intros options l.
  assert (Hhead : JS.split_first "<head>" Sample.html
                  = Some ("<html>", "</head><body></body></html>")) by reflexivity.
  assert (Hversion : JS.no_dollar "1.2.3" = true) by reflexivity.
  split; [exact Hhead | split; [exact Hversion | ]].
  exact (proj1 (proj1 (injection_modes_insert_distinct_shapes options "1.2.3" l Sample.html
                         _ _ Hhead Hversion) eq_refl) eq_refl eq_refl).
Defined.

(** A page without either marker is written back, and nothing is logged. *)
Lemma missing_markers_witness :
  let options := Sample.options (Some false) None None "1.2.3" in
  let w := Sample.world (Some "<main>plain</main>") in
  files w !! htmlFilePath options Sample.compiler = Some "<main>plain</main>"
  /\ fst (afterEmit options "1.2.3" Sample.compiler w) = Normal tt
  /\ console (snd (afterEmit options "1.2.3" Sample.compiler w)) = [].
Proof.
  intros options w.
  assert (H : files w !! htmlFilePath options Sample.compiler = Some "<main>plain</main>")
    by (vm_compute; reflexivity).
  destruct (missing_markers_are_skipped_silently options "1.2.3" Sample.compiler w _ H)
    as [Hnormal [Hlog _]].
  split; [exact H | split; [exact Hnormal | exact Hlog]].
Defined.

(** C2 fails as stated: the notification is shown, yet on a page without a
    closing body tag neither mode inserts an anchor. *)
Lemma anchor_absent_without_closing_body :
  let html := "<html><head></head><body><p>hi</p></html>" in
  let options := Sample.options (Some false) None None "1.2.3" in
  truthy (hiddenDefaultNotification options) = false
  /\ JS.includes (injectPluginHtml html "1.2.3" options "24211" "13791") anchorElement = false
  /\ JS.includes
       (injectPluginHTMLInline html "1.2.3" options ".anchor{color:red}" "poll();")
       anchorElement = false.
Proof. vm_compute. repeat split. Qed.

(** C3 fails as stated: with a custom notification markup the stylesheet
    asset is registered for the build, yet inline mode embeds no style
    element and none of the stylesheet's text. *)
Lemma inline_mode_without_style_element :
  let options := Sample.options None (Some "<div>reload</div>") (Some true) "1.2.3" in
  let r := build options Sample.compiler Sample.env Sample.env (Sample.world (Some Sample.html)) in
  let page := default "" (files (snd r) !! "/dist/index.html") in
  assets (snd r) !! styleAssetName (getFileHash ".anchor{color:red}") = Some StyleAsset
  /\ source (locals (snd r)) StyleAsset = ".anchor{color:red}"
  /\ JS.includes page "<style>" = false
  /\ JS.includes page ".anchor{color:red}" = false
  /\ JS.includes page ("<script>" ++ source (locals (snd r)) ScriptAsset ++ "</script>") = true.
Proof. vm_compute. repeat split. Qed.

(** C6 fails as stated: a page with neither an opening head tag nor a
    closing body tag goes through the build without any report, and is
    written back as it was. *)
Lemma document_without_markers_passes_silently :
  let html := "<main>no head tag, no closing body tag</main>" in
  let options := Sample.options (Some false) None None "1.2.3" in
  let r := build options Sample.compiler Sample.env Sample.env (Sample.world (Some html)) in
  JS.includes html "<head>" = false
  /\ JS.includes html "</body>" = false
  /\ (exists result, fst r = Normal result)
  /\ console (snd r) = []
  /\ files (snd r) !! "/dist/index.html" = Some html.
Proof. vm_compute. repeat split. eexists. reflexivity. Qed.

(** C4, at the failing input: version [$&].  Linked mode hands the head
    replacement to [replace] as a template, so the version script it inserts
    assigns the matched text, the head tag, instead of the version. *)
Theorem linked_injection_rewrites_dollar_patterns :
  let options := Sample.options (Some false) None None "$&" in
  let out := injectPluginHtml Sample.html "$&" options "24211" "13791" in
  JS.includes out (versionScript "$&") = false
  /\ JS.includes out "<script>window.pluginWebUpdateNotice_version = '<head>';</script>" = true.
Proof. vm_compute. split; reflexivity. Qed.

(** C5, at the failing input: custom version [v$$2].  The build resolves
    the version to that string and puts it into the manifest, but in both
    modes the version script written into the page assigns [v$2]. *)
Theorem version_not_verbatim_in_page :
  let run := fun micro =>
    build (Sample.options (Some false) None micro "v$$2") Sample.compiler Sample.env
      Sample.env
      (Sample.world (Some Sample.html)) in
  let page := fun micro => default "" (files (snd (run micro)) !! "/dist/index.html") in
  (exists options, fst (run None) = Normal (options, "v$$2"))
  /\ assets (snd (run None)) !! jsonAssetName
     = Some (ManifestAsset (generateJSONFileContent "v$$2" None))
  /\ JS.includes (page None) (versionScript "v$$2") = false
  /\ JS.includes (page None) (versionScript "v$2") = true
  /\ JS.includes (page (Some true)) (versionScript "v$$2") = false
  /\ JS.includes (page (Some true)) (versionScript "v$2") = true.
Proof. vm_compute. repeat split. eexists. reflexivity. Qed.

(** The emit phase on a disk without the stylesheet template. *)
Lemma emit_without_style_template_witness :
  let options := Sample.options (Some false) None None "1.2.3" in
  let w := Sample.without "/core/dist/webUpdateNoticeInjectStyle.css" (Sample.world None) in
  truthy (hiddenDefaultNotification options) = false
  /\ files w !! styleTemplatePath = None
  /\ fst (emit options "1.2.3" Sample.env w) = Throw (ENOENT styleTemplatePath).
Proof.
  intros options w.
  assert (H1 : truthy (hiddenDefaultNotification options) = false) by reflexivity.
  assert (H2 : files w !! styleTemplatePath = None) by (vm_compute; reflexivity).
  split; [exact H1 | split; [exact H2 | ]].
  exact (proj1 (emit_without_style_template options "1.2.3" Sample.env w H1 H2)).
Defined.

(** The emit phase on a disk without the script template. *)
Lemma emit_without_script_template_witness :
  let options := Sample.options (Some false) None None "1.2.3" in
  let w := Sample.without "/core/dist/webUpdateNoticeInjectScript.js" (Sample.world None) in
  truthy (hiddenDefaultNotification options) = false
  /\ files w !! styleTemplatePath = Some ".anchor{color:red}"
  /\ files w !! scriptTemplatePath = None
  /\ fst (emit options "1.2.3" Sample.env w) = Throw (ENOENT scriptTemplatePath).
Proof.
  intros options w.
  assert (H1 : truthy (hiddenDefaultNotification options) = false) by reflexivity.
  assert (H2 : files w !! styleTemplatePath = Some ".anchor{color:red}")
    by (vm_compute; reflexivity).
  assert (H3 : files w !! scriptTemplatePath = None) by (vm_compute; reflexivity).
  split; [exact H1 | split; [exact H2 | split; [exact H3 | ]]].
  exact (proj1 (emit_without_script_template options "1.2.3" Sample.env w _ H1 H2 H3)).
Defined.

(** The emit phase with the notification hidden and no stylesheet template. *)
Lemma emit_hidden_skips_stylesheet_witness :
  let options := Sample.options (Some true) None None "1.2.3" in
  let w := Sample.without "/core/dist/webUpdateNoticeInjectStyle.css" (Sample.world None) in
  truthy (hiddenDefaultNotification options) = true
  /\ (fst (emit options "1.2.3" Sample.env w) = Normal tt <-> is_Some (files w !! scriptTemplatePath)).
Proof.
  intros options w.
  assert (H1 : truthy (hiddenDefaultNotification options) = true) by reflexivity.
  split; [exact H1 | ].
  exact (proj1 (emit_hidden_skips_stylesheet options "1.2.3" Sample.env w H1)).
Defined.

(** [apply] on the sample options, and again on a compiler with another
    public path. *)
Lemma apply_fixes_base_path_witness :
  let options := Sample.options (Some false) None None "1.2.3" in
  let options' :=
    mkOptions (Some "custom") (Some "1.2.3") (Some false) None (Some "/") None None None tt in
  apply options Sample.compiler Sample.env = Normal (options', "1.2.3")
  /\ apply options' (mkCompiler (Some "/cdn/") "/out") Sample.env
     = Normal (options', "1.2.3").
Proof.
  intros options options'.
  assert (H : apply options Sample.compiler Sample.env = Normal (options', "1.2.3"))
    by reflexivity.
  split; [exact H | ].
  exact (proj2 (proj2 (apply_fixes_base_path options options' Sample.compiler
                         Sample.env "1.2.3" H)) (mkCompiler (Some "/cdn/") "/out")).
Defined.

(** A build without the script template leaves the disk alone. *)
Lemma build_stops_when_template_missing_witness :
  let options := Sample.options (Some false) None None "1.2.3" in
  let options' :=
    mkOptions (Some "custom") (Some "1.2.3") (Some false) None (Some "/") None None None tt in
  let w := Sample.without "/core/dist/webUpdateNoticeInjectScript.js"
             (Sample.world (Some Sample.html)) in
  apply options Sample.compiler Sample.env = Normal (options', "1.2.3")
  /\ files w !! scriptTemplatePath = None
  /\ files (snd (build options Sample.compiler Sample.env Sample.env w)) = files w.
Proof.
  intros options options' w.
  assert (H1 : apply options Sample.compiler Sample.env = Normal (options', "1.2.3"))
    by reflexivity.
  assert (H2 : files w !! scriptTemplatePath = None) by (vm_compute; reflexivity).
  split; [exact H1 | split; [exact H2 | ]].
  exact (proj1 (proj2 (build_stops_when_template_missing options options' Sample.compiler
                         Sample.env Sample.env "1.2.3" w H1 (or_introl H2)))).
Defined.

(** A complete linked build on the sample disk. *)
Lemma build_links_registered_assets_witness :
  let options := Sample.options (Some false) None None "1.2.3" in
  let options' :=
    mkOptions (Some "custom") (Some "1.2.3") (Some false) None (Some "/") None None None tt in
  let w := Sample.world (Some Sample.html) in
  apply options Sample.compiler Sample.env = Normal (options', "1.2.3")
  /\ files w !! htmlFilePath options Sample.compiler = Some Sample.html
  /\ fst (build options Sample.compiler Sample.env Sample.env w) = Normal (options', "1.2.3").
Proof.
  intros options options' w.
  assert (H1 : apply options Sample.compiler Sample.env = Normal (options', "1.2.3"))
    by reflexivity.
  assert (H2 : files w !! styleTemplatePath = Some ".anchor{color:red}")
    by (vm_compute; reflexivity).
  assert (H3 : files w !! scriptTemplatePath = Some "poll();") by (vm_compute; reflexivity).
  assert (H4 : files w !! htmlFilePath options Sample.compiler = Some Sample.html)
    by (vm_compute; reflexivity).
  split; [exact H1 | split; [exact H4 | ]].
  exact (proj1 (build_links_registered_assets options options' Sample.compiler
                  Sample.env Sample.env "1.2.3" w _ _ _ H1 eq_refl eq_refl H2 H3 H4)).
Defined.

(** A complete micro-app build on the sample disk. *)
Lemma build_inlines_registered_contents_witness :
  let options := Sample.options (Some false) None (Some true) "1.2.3" in
  let options' :=
    mkOptions (Some "custom") (Some "1.2.3") (Some false) None (Some "/") None (Some true)
      None tt in
  let w := Sample.world (Some Sample.html) in
  apply options Sample.compiler Sample.env = Normal (options', "1.2.3")
  /\ files w !! htmlFilePath options Sample.compiler = Some Sample.html
  /\ fst (build options Sample.compiler Sample.env Sample.env w) = Normal (options', "1.2.3").
Proof.
  intros options options' w.
  assert (H1 : apply options Sample.compiler Sample.env = Normal (options', "1.2.3"))
    by reflexivity.
  assert (H2 : files w !! styleTemplatePath = Some ".anchor{color:red}")
    by (vm_compute; reflexivity).
  assert (H3 : files w !! scriptTemplatePath = Some "poll();") by (vm_compute; reflexivity).
  assert (H4 : files w !! htmlFilePath options Sample.compiler = Some Sample.html)
    by (vm_compute; reflexivity).
  split; [exact H1 | split; [exact H4 | ]].
  exact (proj1 (build_inlines_registered_contents options options' Sample.compiler
                  Sample.env Sample.env "1.2.3" w _ _ _ H1 eq_refl eq_refl H2 H3 H4)).
Defined.

(** Injecting twice into the sample page. *)
Lemma injection_is_not_idempotent_witness :
  let options := Sample.options (Some false) None None "1.2.3" in
  let l := mkLocals "13791" "24211" "" "" in
  JS.includes Sample.html "<head>" = true
  /\ inject options "1.2.3" l (inject options "1.2.3" l Sample.html)
     <> inject options "1.2.3" l Sample.html.
Proof.
  intros options l.
  assert (H : JS.includes Sample.html "<head>" = true) by reflexivity.
  split; [exact H | ].
  exact (proj2 (proj2 (injection_is_not_idempotent options "1.2.3" l Sample.html H))).
Defined.

(** Both modes on a page without a head tag. *)
Lemma modes_agree_without_head_witness :
  let options := Sample.options (Some false) None None "1.2.3" in
  JS.includes "<main>plain</main></body>" "<head>" = false
  /\ injectPluginHtml "<main>plain</main></body>" "1.2.3" options "24211" "13791"
     = injectPluginHTMLInline "<main>plain</main></body>" "4.5.6" options
         ".anchor{color:red}" "poll();".
Proof.
  intros options.
  assert (H : JS.includes "<main>plain</main></body>" "<head>" = false) by reflexivity.
  split; [exact H | ].
  exact (modes_agree_without_head options _ "1.2.3" "4.5.6" "24211" "13791"
           ".anchor{color:red}" "poll();" H).
Defined.

(** Inline mode with a script that contains a doubled dollar sign. *)
Lemma inline_insertion_witness :
  let options := Sample.options (Some true) None (Some true) "1.2.3" in
  JS.split_first "<head>" Sample.html = Some ("<html>", "</head><body></body></html>")
  /\ JS.includes
       (injectPluginHTMLInline Sample.html "1.2.3" options ".anchor{color:red}" "pay('$$');")
       "<script>pay('$');</script>" = true.
Proof.
  intros options.
  assert (H : JS.split_first "<head>" Sample.html
              = Some ("<html>", "</head><body></body></html>")) by reflexivity.
  split; [exact H | ].
  rewrite (proj1 (inline_insertion_for_any_contents options Sample.html _ _ "1.2.3"
                    ".anchor{color:red}" "pay('$$');" H)).
  vm_compute. reflexivity.
Defined.

(** Linked mode with a base path that contains a doubled dollar sign. *)
Lemma linked_insertion_witness :
  let options :=
    mkOptions (Some "custom") (Some "1.2.3") (Some true) None (Some "/$$cdn/") None None
      None tt in
  JS.split_first "<head>" Sample.html = Some ("<html>", "</head><body></body></html>")
  /\ JS.includes (injectPluginHtml Sample.html "1.2.3" options "24211" "13791")
       "/$cdn/pluginWebUpdateNotice/webUpdateNoticeInjectScript.13791.js" = true.
Proof.
  intros options.
  assert (H : JS.split_first "<head>" Sample.html
              = Some ("<html>", "</head><body></body></html>")) by reflexivity.
  split; [exact H | ].
  rewrite (linked_insertion_for_any_options options Sample.html _ _ "1.2.3"
             "24211" "13791" H).
  vm_compute. reflexivity.
Defined.

End Runs.
